(** * openclaw-skills / search-layer: fetch, reference extraction,
      relevance gate and crawl orchestrator

    A shallow embedding of
      - [search-layer/scripts/fetch_thread.py]   (module [FetchThread]),
      - [search-layer/scripts/relevance_gate.py] (module [RelevanceGate]),
      - [search-layer/scripts/chain_tracker.py]  (module [ChainTracker]),
    with the Python runtime pieces they rely on (module [Py]) and the part
    of the [re] matcher that [_REF_PATTERNS] needs (module [Re]).

    Conventions.
    - A Python [str] is a [string]; a character is one code point below 256.
    - A Python [int] is a [Z]; a Python [float] is [Py.pyfloat].
    - A call that may raise returns [Py.res A]: [Py.Ok a] or [Py.Raise e].
    - A Python [set] of strings is a [gset string]. *)

From Stdlib Require Import ZArith QArith Lia List String Ascii Bool Permutation Sorted.
From stdpp Require Import base gmap sets strings.
Import ListNotations.

Local Open Scope string_scope.
Local Open Scope list_scope.

Set Warnings "-register-all".

(* ===================================================================== *)
(** * Part I. Definitions                                                *)
(* ===================================================================== *)

(** ** Python runtime *)
Module Py.

(** Exceptions: the class and the message ([str(e)]). *)
Inductive exn_class :=
| AttributeError | TypeError | ValueError | KeyError | IndexError
| OverflowError | RuntimeError | OSError | JSONDecodeError | OtherError.

Record exn := Exn { exn_cls : exn_class; exn_msg : string }.

Inductive res (A : Type) :=
| Ok (a : A)
| Raise (e : exn).
Arguments Ok {A} a.
Arguments Raise {A} e.

Definition bind {A B} (x : res A) (f : A -> res B) : res B :=
  match x with
  | Ok a => f a
  | Raise e => Raise e
  end.

Definition raise {A} (c : exn_class) (msg : string) : res A := Raise (Exn c msg).

(** [x ← e; k] runs [e], and [k] unless [e] raised. *)
#[global] Instance res_ret : MRet res := @Ok.
#[global] Instance res_bind : MBind res := fun A B f x => bind x f.

(** [for x in l: acc = f(acc, x)] where the body may raise. *)
Fixpoint foldM {A B} (f : B -> A -> res B) (l : list A) (acc : B) : res B :=
  match l with
  | [] => Ok acc
  | x :: l' => bind (f acc x) (foldM f l')
  end.

(** *** Characters and strings *)

(** [str.isspace] on the code points below 256: TAB..CR, FS..US, space,
    NEL and NBSP.  It is also the class [\s] of a [str] pattern. *)
Definition isspace (c : ascii) : bool :=
  let n := nat_of_ascii c in
  ((9 <=? n) && (n <=? 13) || (28 <=? n) && (n <=? 32)
   || (n =? 133) || (n =? 160))%nat.

Definition isdigit (c : ascii) : bool :=
  let n := nat_of_ascii c in ((48 <=? n) && (n <=? 57))%nat.

Definition isupper (c : ascii) : bool :=
  let n := nat_of_ascii c in ((65 <=? n) && (n <=? 90))%nat.

Definition islower (c : ascii) : bool :=
  let n := nat_of_ascii c in ((97 <=? n) && (n <=? 122))%nat.

(** ASCII case folding, as used by a case-insensitive match of an ASCII
    letter against a code point below 256. *)
Definition lower (c : ascii) : ascii :=
  if isupper c then ascii_of_nat (nat_of_ascii c + 32) else c.

Definition chars (s : string) : list ascii := list_ascii_of_string s.
Definition str (l : list ascii) : string := string_of_list_ascii l.

Fixpoint drop_while {A} (p : A -> bool) (l : list A) : list A :=
  match l with
  | [] => []
  | x :: l' => if p x then drop_while p l' else l
  end.

(** [s.lstrip(cs)], [s.rstrip(cs)], [s.strip(cs)] for a character class. *)
Definition lstrip_by (p : ascii -> bool) (s : string) : string :=
  str (drop_while p (chars s)).
Definition rstrip_by (p : ascii -> bool) (s : string) : string :=
  str (rev (drop_while p (rev (chars s)))).
Definition strip_by (p : ascii -> bool) (s : string) : string :=
  lstrip_by p (rstrip_by p s).

(** [s.strip()] *)
Definition strip (s : string) : string := strip_by isspace s.

(** [s.rstrip("/")]: the canonical form of a URL. *)
Definition rstrip_slash (s : string) : string :=
  rstrip_by (Ascii.eqb "/"%char) s.

(** [s[a:b]] for [0 <= a], [0 <= b]. *)
Definition slice (a b : nat) (s : string) : string :=
  str (firstn (b - a) (skipn a (chars s))).

(** [s[:n]] for [0 <= n]. *)
Definition prefix_n (n : nat) (s : string) : string := slice 0 n s.

(** [s.replace("\n", " ")] *)
Definition newline : ascii := ascii_of_nat 10.
Definition replace_nl (s : string) : string :=
  str (map (fun c => if Ascii.eqb c newline then " "%char else c) (chars s)).

(** [s.startswith(p)] *)
Definition startswith (p s : string) : bool := String.prefix p s.

(** Truthiness of a [str]. *)
Definition nonempty (s : string) : bool :=
  match s with EmptyString => false | _ => true end.

(** [a or b] on strings. *)
Definition str_or (a b : string) : string := if nonempty a then a else b.

(** *** Decimal rendering of an [int] ([str(n)], [f"{n}"]) *)
Definition digit_char (n : nat) : ascii := ascii_of_nat (48 + n).

Fixpoint dec_digits (fuel : nat) (n : N) (acc : list ascii) : list ascii :=
  match fuel with
  | O => acc
  | S fuel' =>
      let acc' := digit_char (N.to_nat (n mod 10)) :: acc in
      if (n <? 10)%N then acc' else dec_digits fuel' (n / 10)%N acc'
  end.

Definition str_of_N (n : N) : string :=
  str (dec_digits (S (N.to_nat (N.log2 n))) n []).

Definition str_of_Z (z : Z) : string :=
  match z with
  | Z0 => "0"
  | Zpos p => str_of_N (Npos p)
  | Zneg p => "-" +:+ str_of_N (Npos p)
  end.

(** *** Slices of a list with a possibly negative bound: [l[:k]] *)
Definition take_upto {A} (k : Z) (l : list A) : list A :=
  if (0 <=? k)%Z then firstn (Z.to_nat k) l
  else firstn (length l - Z.to_nat (- k)) l.

(** *** Floats
    A Python [float] is an IEEE-754 double.  Only its order is used by the
    code modelled here, so a float is a NaN, an infinity or its exact
    (rational) value; [-0.0] and [0.0] are the same value, as they are for
    [==], [<] and [>=]. *)
Inductive pyfloat :=
| FNaN
| FNegInf
| FFin (q : Q)
| FPosInf.

(** [a < b] *)
Definition flt (a b : pyfloat) : bool :=
  match a, b with
  | FNaN, _ | _, FNaN => false
  | FNegInf, FNegInf => false
  | FNegInf, _ => true
  | _, FNegInf => false
  | FFin x, FFin y => negb (Qle_bool y x)
  | FFin _, FPosInf => true
  | FPosInf, _ => false
  end.

(** [a == b] *)
Definition feq (a b : pyfloat) : bool :=
  match a, b with
  | FNegInf, FNegInf | FPosInf, FPosInf => true
  | FFin x, FFin y => Qeq_bool x y
  | _, _ => false
  end.

(** [a >= b] *)
Definition fge (a b : pyfloat) : bool := flt b a || feq a b.

(** [a == a]: [a] is not a NaN. *)
Definition notnan (a : pyfloat) : bool :=
  match a with FNaN => false | _ => true end.

Definition f_half : pyfloat := FFin (1 # 2).   (* 0.5 *)
Definition f_one : pyfloat := FFin 1.          (* 1.0 *)
Definition f_zero : pyfloat := FFin 0.         (* 0.0 *)

(** *** JSON values as Python objects
    What [json.loads] returns: [None], [bool], [int], [float], [str],
    [list] and [dict] (its items in insertion order, keys distinct). *)
Inductive json :=
| JNull
| JBool (b : bool)
| JInt (z : Z)
| JFloat (f : pyfloat)
| JStr (s : string)
| JArr (l : list json)
| JObj (items : list (string * json)).

Definition type_name (v : json) : string :=
  match v with
  | JNull => "NoneType"
  | JBool _ => "bool"
  | JInt _ => "int"
  | JFloat _ => "float"
  | JStr _ => "str"
  | JArr _ => "list"
  | JObj _ => "dict"
  end.

(** Truth value of an object ([if v:], [v or d], [not v]). *)
Definition truthy (v : json) : bool :=
  match v with
  | JNull => false
  | JBool b => b
  | JInt z => negb (z =? 0)%Z
  | JFloat f => negb (feq f f_zero)
  | JStr s => nonempty s
  | JArr l => match l with [] => false | _ => true end
  | JObj items => match items with [] => false | _ => true end
  end.

(** [a or b] *)
Definition or_ (a b : json) : json := if truthy a then a else b.

(** [d.get(k, default)] on a dict. *)
Definition lookup (k : string) (items : list (string * json)) : option json :=
  match find (fun kv => String.eqb (fst kv) k) items with
  | Some kv => Some (snd kv)
  | None => None
  end.

Definition dict_get (items : list (string * json)) (k : string) (d : json) : json :=
  match lookup k items with
  | Some v => v
  | None => d
  end.

(** [v.get(k, default)] on any object: only a dict has the method. *)
Definition get (v : json) (k : string) (d : json) : res json :=
  match v with
  | JObj items => Ok (dict_get items k d)
  | _ => raise AttributeError ("'" +:+ type_name v +:+ "' object has no attribute 'get'")
  end.

(** [for x in v]: the elements of a list, the keys of a dict, the
    characters of a str; anything else is not iterable. *)
Definition iter (v : json) : res (list json) :=
  match v with
  | JArr l => Ok l
  | JObj items => Ok (map (fun kv => JStr (fst kv)) items)
  | JStr s => Ok (map (fun c => JStr (String c EmptyString)) (chars s))
  | _ => raise TypeError ("'" +:+ type_name v +:+ "' object is not iterable")
  end.

(** [len(v)] *)
Definition len (v : json) : res nat :=
  match v with
  | JArr l => Ok (length l)
  | JObj items => Ok (length items)
  | JStr s => Ok (String.length s)
  | _ => raise TypeError ("object of type '" +:+ type_name v +:+ "' has no len()")
  end.

(** [v > 0] *)
Definition gt0 (v : json) : res bool :=
  match v with
  | JBool b => Ok b
  | JInt z => Ok (0 <? z)%Z
  | JFloat f => Ok (flt f_zero f)
  | _ => raise TypeError ("'>' not supported between instances of '"
                          +:+ type_name v +:+ "' and 'int'")
  end.

(** A value that must be a [str] where it is used. *)
Definition as_str (v : json) : res string :=
  match v with
  | JStr s => Ok s
  | _ => raise TypeError ("expected str, got " +:+ type_name v)
  end.

End Py.

(** ** The [re] matcher
    A backtracking matcher with the priorities of Python's [re]: the
    alternatives of [|] are tried left to right, a greedy quantifier tries
    one more iteration first and a lazy one tries to stop first, and the
    first complete match found is the match.  It covers the constructs that
    occur in [_REF_PATTERNS] and in the image test of [extract_refs]. *)
Module Re.

Inductive re :=
| Eps                                  (* empty pattern *)
| Chr (p : ascii -> bool)              (* one character of a class *)
| Cat (r1 r2 : re)                     (* r1 r2 *)
| Alt (r1 r2 : re)                     (* r1|r2 *)
| Star (greedy : bool) (r : re)        (* r* and r*? *)
| Grp (n : nat) (r : re)               (* capturing group number n *)
| Bol                                  (* ^ under re.MULTILINE *)
| Eol                                  (* $ under re.MULTILINE *)
| Eos                                  (* $ without re.MULTILINE *)
| Ahead (positive : bool) (r : re)     (* (?=r) and (?!r) *)
| NotBehind (p : ascii -> bool).       (* (?<!c) for a class c *)

(** Derived forms. *)
Definition Plus (g : bool) (r : re) : re := Cat r (Star g r).   (* r+ r+? *)
Definition Opt (r : re) : re := Alt r Eps.                      (* r? *)

Fixpoint Seq (l : list re) : re :=
  match l with
  | [] => Eps
  | [r] => r
  | r :: l' => Cat r (Seq l')
  end.

Fixpoint Alts (l : list re) : re :=
  match l with
  | [] => Eps
  | [r] => r
  | r :: l' => Alt r (Alts l')
  end.

(** r{n} *)
Fixpoint Exactly (n : nat) (r : re) : re :=
  match n with
  | O => Eps
  | S n' => Cat r (Exactly n' r)
  end.

(** r{0,n}, greedy *)
Fixpoint UpTo (n : nat) (r : re) : re :=
  match n with
  | O => Eps
  | S n' => Opt (Cat r (UpTo n' r))
  end.

(** r{m,n} for m <= n *)
Definition Between (m n : nat) (r : re) : re := Cat (Exactly m r) (UpTo (n - m) r).

(** A literal character; under [(?i)] / [re.I] it matches either case. *)
Definition Lit1 (ci : bool) (c : ascii) : re :=
  Chr (fun x => if ci then Ascii.eqb (Py.lower x) (Py.lower c) else Ascii.eqb x c).

(** A literal string. *)
Definition Lit (ci : bool) (s : string) : re := Seq (map (Lit1 ci) (Py.chars s)).

(** The matcher's position in the subject: the index, the character just
    before it, the rest of the subject, and the groups closed so far (the
    most recent first) as [(number, (start, end))]. *)
Record st := St {
  pos : nat;
  prev : option ascii;
  rest : list ascii;
  caps : list (nat * (nat * nat))
}.

Definition orelse {A} (x y : option A) : option A :=
  match x with
  | Some _ => x
  | None => y
  end.

(** [m r k s]: match [r] at [s], then continue with [k]; [None] makes the
    matcher backtrack.  An iteration of a quantifier must consume a
    character, so the subject's remaining length bounds the iterations. *)
Fixpoint m (r : re) (k : st -> option st) (s : st) {struct r} : option st :=
  match r with
  | Eps => k s
  | Chr p =>
      match rest s with
      | c :: t => if p c then k (St (S (pos s)) (Some c) t (caps s)) else None
      | [] => None
      end
  | Cat r1 r2 => m r1 (fun s' => m r2 k s') s
  | Alt r1 r2 => orelse (m r1 k s) (m r2 k s)
  | Star greedy r' =>
      (fix loop (n : nat) (s : st) {struct n} : option st :=
         match n with
         | O => k s
         | S n' =>
             let more :=
               m r' (fun s' => if (pos s <? pos s')%nat then loop n' s' else None) s in
             if greedy then orelse more (k s) else orelse (k s) more
         end) (S (length (rest s))) s
  | Grp n r' => m r' (fun s' => k (St (pos s') (prev s') (rest s')
                                      ((n, (pos s, pos s')) :: caps s'))) s
  | Bol =>
      match prev s with
      | None => k s
      | Some c => if Ascii.eqb c Py.newline then k s else None
      end
  | Eol =>
      match rest s with
      | [] => k s
      | c :: _ => if Ascii.eqb c Py.newline then k s else None
      end
  | Eos =>
      match rest s with
      | [] => k s
      | [c] => if Ascii.eqb c Py.newline then k s else None
      | _ => None
      end
  | Ahead positive r' =>
      match m r' Some s with
      | Some _ => if positive then k s else None
      | None => if positive then None else k s
      end
  | NotBehind p =>
      match prev s with
      | None => k s
      | Some c => if p c then None else k s
      end
  end.

(** A match object: [m.start()], [m.end()] and the groups. *)
Record pymatch := Match {
  m_start : nat;
  m_end : nat;
  m_caps : list (nat * (nat * nat))
}.

(** [re.match] at a given position of the subject. *)
Definition match_at (r : re) (s : st) : option pymatch :=
  match m r Some (St (pos s) (prev s) (rest s) []) with
  | Some s' => Some (Match (pos s) (pos s') (caps s'))
  | None => None
  end.

(** Move [n] characters forward in the subject. *)
Fixpoint advance (n : nat) (s : st) : st :=
  match n, rest s with
  | S n', c :: t => advance n' (St (S (pos s)) (Some c) t [])
  | _, _ => s
  end.

(** [re.finditer]: the leftmost match from the current position, then on
    from its end (one character further after an empty match). *)
Fixpoint finditer_from (fuel : nat) (r : re) (s : st) : list pymatch :=
  match fuel with
  | O => []
  | S fuel' =>
      match match_at r s with
      | Some mt =>
          let step := if (m_start mt <? m_end mt)%nat then (m_end mt - m_start mt)%nat
                      else 1%nat in
          mt :: (if (length (rest s) <? step)%nat then []
                 else finditer_from fuel' r (advance step s))
      | None =>
          match rest s with
          | [] => []
          | _ :: _ => finditer_from fuel' r (advance 1 s)
          end
      end
  end.

Definition finditer (r : re) (text : string) : list pymatch :=
  let cs := Py.chars text in
  finditer_from (S (length cs)) r (St 0 None cs []).

(** [re.search(r, text)] as a truth value. *)
Definition search (r : re) (text : string) : bool :=
  let cs := Py.chars text in
  (fix go (fuel : nat) (s : st) : bool :=
     match fuel with
     | O => false
     | S fuel' =>
         match match_at r s with
         | Some _ => true
         | None => match rest s with
                   | [] => false
                   | _ :: _ => go fuel' (advance 1 s)
                   end
         end
     end) (S (length cs)) (St 0 None cs []).

(** [m.group(n)]: [None] when the group took no part in the match. *)
Definition group (text : string) (mt : pymatch) (n : nat) : option string :=
  match find (fun c => Nat.eqb (fst c) n) (m_caps mt) with
  | Some (_, (a, b)) => Some (Py.slice a b text)
  | None => None
  end.

End Re.

(** ** fetch_thread.py: reference extraction *)
Module FetchThread.
Import Re.

(** A ref: [{"type": ..., "url": ..., "context": ...}]. *)
Record ref := Ref {
  ref_type : string;
  ref_url : string;
  ref_context : string
}.

Inductive kind :=
| issue_ref | gh_ref | github_url | commit_url | full_sha
| duplicate | duplicate_url | related_ref | external_url.

(** Character classes of the patterns.  In the comments that quote a
    pattern, the double quote is written \x22 and a blank separates a star
    from a closing parenthesis that follows it. *)
Definition ch (c : ascii) : ascii -> bool := Ascii.eqb c.
Definition one_of (s : string) (c : ascii) : bool := existsb (Ascii.eqb c) (Py.chars s).

Definition c_space : ascii -> bool := Py.isspace.                         (* \s *)
Definition c_digit : ascii -> bool := Py.isdigit.                         (* \d *)
Definition c_open (c : ascii) : bool := Py.isspace c || ch "(" c.         (* [\s(] *)
Definition c_repo (c : ascii) : bool :=                                   (* [a-zA-Z0-9_.-] *)
  Py.islower c || Py.isupper c || Py.isdigit c || one_of "_.-" c.
Definition c_after (c : ascii) : bool :=                                  (* [\s).,;:!?\'] *)
  Py.isspace c || one_of ").,;:!?'" c.
Definition c_after_url (c : ascii) : bool :=                              (* [)\s.,;:!?\'\x22] *)
  Py.isspace c || one_of ").,;:!?'" c || ch (ascii_of_nat 34) c.
Definition c_hex (c : ascii) : bool :=                                    (* [0-9a-f] *)
  Py.isdigit c || one_of "abcdef" c.
Definition c_frag (c : ascii) : bool := negb (Py.isspace c || ch ")" c).  (* [^\s)] *)
Definition c_url (c : ascii) : bool :=                                    (* [^\s<>\[\]()] *)
  negb (Py.isspace c || one_of "<>[]()" c).
Definition c_nonspace (c : ascii) : bool := negb (Py.isspace c).          (* \S *)

(** (?:^|[\s(]) *)
Definition r_open : re := Alt Bol (Chr c_open).
(** (?=[\s).,;:!?\']|$) *)
Definition r_close : re := Ahead true (Alt (Chr c_after) Eol).
(** [a-zA-Z0-9_.-]+/[a-zA-Z0-9_.-]+ *)
Definition r_repo : re := Seq [Plus true (Chr c_repo); Chr (ch "/"); Plus true (Chr c_repo)].
(** https?://github\.com/ *)
Definition r_github (ci : bool) : re :=
  Seq [Lit ci "http"; Opt (Lit1 ci "s"); Lit ci "://github.com/"].

Definition _REF_PATTERNS : list (re * kind) := [
  (* (?:^|[\s(])(?:([a-zA-Z0-9_.-]+/[a-zA-Z0-9_.-]+))?#(\d+)(?=[\s).,;:!?\']|$) *)
  (Seq [r_open; Opt (Grp 1 r_repo); Chr (ch "#"); Grp 2 (Plus true (Chr c_digit)); r_close],
   issue_ref);
  (* (?:^|[\s(])GH-(\d+)(?=[\s).,;:!?\']|$) *)
  (Seq [r_open; Lit false "GH-"; Grp 1 (Plus true (Chr c_digit)); r_close],
   gh_ref);
  (* https?://github\.com/([a-zA-Z0-9_.-]+/[a-zA-Z0-9_.-]+)/(issues|pull|discussions)/(\d+)(?:#[^\s)]* )? *)
  (Seq [r_github false; Grp 1 r_repo; Chr (ch "/");
        Grp 2 (Alts [Lit false "issues"; Lit false "pull"; Lit false "discussions"]);
        Chr (ch "/"); Grp 3 (Plus true (Chr c_digit));
        Opt (Cat (Chr (ch "#")) (Star true (Chr c_frag)))],
   github_url);
  (* https?://github\.com/([a-zA-Z0-9_.-]+/[a-zA-Z0-9_.-]+)/commit/([0-9a-f]{7,40}) *)
  (Seq [r_github false; Grp 1 r_repo; Lit false "/commit/"; Grp 2 (Between 7 40 (Chr c_hex))],
   commit_url);
  (* (?:^|[\s(])([0-9a-f]{40})(?=[\s).,;:!?\']|$) *)
  (Seq [r_open; Grp 1 (Exactly 40 (Chr c_hex)); r_close],
   full_sha);
  (* (?i)(?:duplicate\s+of|duplicates?|dup(?:licate)?(?:\s+of)?)\s+#(\d+) *)
  (Seq [Alts [Seq [Lit true "duplicate"; Plus true (Chr c_space); Lit true "of"];
              Seq [Lit true "duplicate"; Opt (Lit1 true "s")];
              Seq [Lit true "dup"; Opt (Lit true "licate");
                   Opt (Seq [Plus true (Chr c_space); Lit true "of"])]];
        Plus true (Chr c_space); Chr (ch "#"); Grp 1 (Plus true (Chr c_digit))],
   duplicate);
  (* (?i)(?:duplicate\s+of|duplicates?)\s+https?://github\.com/([a-zA-Z0-9_.-]+/[a-zA-Z0-9_.-]+)/(issues|pull)/(\d+) *)
  (Seq [Alts [Seq [Lit true "duplicate"; Plus true (Chr c_space); Lit true "of"];
              Seq [Lit true "duplicate"; Opt (Lit1 true "s")]];
        Plus true (Chr c_space); r_github true; Grp 1 r_repo; Chr (ch "/");
        Grp 2 (Alts [Lit true "issues"; Lit true "pull"]);
        Chr (ch "/"); Grp 3 (Plus true (Chr c_digit))],
   duplicate_url);
  (* (?i)(?:see\s+also|related(?:\s+to)?|fixes|closes|resolves|refs?)\s+#(\d+) *)
  (Seq [Alts [Seq [Lit true "see"; Plus true (Chr c_space); Lit true "also"];
              Seq [Lit true "related"; Opt (Seq [Plus true (Chr c_space); Lit true "to"])];
              Lit true "fixes"; Lit true "closes"; Lit true "resolves";
              Seq [Lit true "ref"; Opt (Lit1 true "s")]];
        Plus true (Chr c_space); Chr (ch "#"); Grp 1 (Plus true (Chr c_digit))],
   related_ref);
  (* (?<!\S)(https?://(?!github\.com)[^\s<>\[\]()]+?)(?=[)\s.,;:!?\'\x22]|$) *)
  (Seq [NotBehind c_nonspace;
        Grp 1 (Seq [Lit false "http"; Opt (Lit1 false "s"); Lit false "://";
                    Ahead false (Lit false "github.com"); Plus false (Chr c_url)]);
        Ahead true (Alt (Chr c_after_url) Eol)],
   external_url)
].

(** \.(png|jpg|jpeg|gif|svg|ico|webp)(\?|$) with re.I *)
Definition r_image : re :=
  Seq [Lit1 true "."; Grp 1 (Alts (map (Lit true) ["png"; "jpg"; "jpeg"; "gif"; "svg"; "ico"; "webp"]));
       Grp 2 (Alt (Chr (ch "?")) Eos)].

(** The two variables that [_add] closes over. *)
Record acc := Acc {
  refs : list ref;
  seen_urls : gset string
}.

Definition _add (ref_type url context : string) (a : acc) : acc :=
  let canon := Py.rstrip_slash url in
  if bool_decide (canon ∈ seen_urls a) then a
  else Acc (refs a ++ [Ref ref_type url context]) ({[canon]} ∪ seen_urls a).

Definition gh (parts : list string) : string :=
  fold_left String.append parts "https://github.com/".

(** [m.group(n)] where the pattern makes group [n] take part in every match. *)
Definition grp (text : string) (mt : pymatch) (n : nat) : string :=
  match group text mt n with Some s => s | None => "" end.

(** The body of the inner loop of [extract_refs] for one match. *)
Definition on_match (text repo_context : string) (k : kind) (mt : pymatch) (a : acc) : acc :=
  let start := (m_start mt - 40)%nat in
  let end_ := Nat.min (String.length text) (m_end mt + 40) in
  let ctx := Py.strip (Py.replace_nl (Py.slice start end_ text)) in
  match k with
  | issue_ref =>
      let repo := match group text mt 1 with
                  | Some g => Py.str_or g repo_context
                  | None => repo_context
                  end in
      let num := grp text mt 2 in
      if Py.nonempty repo
      then _add "issue" (gh [repo; "/issues/"; num]) ctx a
      else a
  | gh_ref =>
      let num := grp text mt 1 in
      if Py.nonempty repo_context
      then _add "issue" (gh [repo_context; "/issues/"; num]) ctx a
      else a
  | github_url =>
      let repo := grp text mt 1 in
      let url_type := grp text mt 2 in
      let num := grp text mt 3 in
      let full_url := gh [repo; "/"; url_type; "/"; num] in
      let ref_type :=
        if String.eqb url_type "issues" then "issue"
        else if String.eqb url_type "pull" then "pr"
        else if String.eqb url_type "discussions" then "discussion"
        else "issue" in
      _add ref_type full_url ctx a
  | commit_url =>
      let repo := grp text mt 1 in
      let sha := grp text mt 2 in
      _add "commit" (gh [repo; "/commit/"; sha]) ctx a
  | full_sha =>
      let sha := grp text mt 1 in
      if Py.nonempty repo_context
      then _add "commit" (gh [repo_context; "/commit/"; sha]) ctx a
      else a
  | duplicate =>
      let num := grp text mt 1 in
      if Py.nonempty repo_context
      then _add "duplicate" (gh [repo_context; "/issues/"; num]) ctx a
      else a
  | duplicate_url =>
      let repo := grp text mt 1 in
      let url_type := grp text mt 2 in
      let num := grp text mt 3 in
      _add "duplicate" (gh [repo; "/"; url_type; "/"; num]) ctx a
  | related_ref =>
      let num := grp text mt 1 in
      if Py.nonempty repo_context
      then _add "related" (gh [repo_context; "/issues/"; num]) ctx a
      else a
  | external_url =>
      let url := grp text mt 1 in
      if negb (search r_image url) then _add "url" url ctx a else a
  end.

(** The accumulator after the patterns of a list have been run in order. *)
Definition run_patterns (text repo_context : string) (ps : list (re * kind)) (a : acc) : acc :=
  fold_left
    (fun a pk => fold_left (fun a mt => on_match text repo_context (snd pk) mt a)
                           (finditer (fst pk) text) a)
    ps a.

Definition extract_refs (text repo_context : string) : list ref :=
  if negb (Py.nonempty text) then []
  else refs (run_patterns text repo_context _REF_PATTERNS (Acc [] ∅)).


(** ** fetch_thread.py: the GitHub issue fetcher *)

(** What [_http_get] returns: [{"status": ..., "text": ..., "json": ...}];
    ["json"] is [None] when the body is not JSON. *)
Record response := Response {
  status : Z;
  text : string;
  json_ : Py.json
}.

Record comment := Comment {
  c_author : Py.json;
  c_date : Py.json;
  c_body : Py.json;
  c_reactions : list (string * Py.json)
}.

(** The dict a fetcher builds.  [d_error = None] when the key ["error"] is
    not set. *)
Record document := Document {
  d_url : string;
  d_type : string;
  d_title : Py.json;
  d_body : Py.json;
  d_state : Py.json;
  d_labels : list Py.json;
  d_comments : list comment;
  d_refs : list ref;
  d_metadata : list (string * Py.json);
  d_error : option string
}.

Definition set_error (msg : string) (d : document) : document :=
  Document (d_url d) (d_type d) (d_title d) (d_body d) (d_state d) (d_labels d)
           (d_comments d) (d_refs d) (d_metadata d) (Some msg).

Definition set_refs (rs : list ref) (d : document) : document :=
  Document (d_url d) (d_type d) (d_title d) (d_body d) (d_state d) (d_labels d)
           (d_comments d) rs (d_metadata d) (d_error d).

Definition add_comment (c : comment) (d : document) : document :=
  Document (d_url d) (d_type d) (d_title d) (d_body d) (d_state d) (d_labels d)
           (d_comments d ++ [c]) (d_refs d) (d_metadata d) (d_error d).

Definition _gh_headers (token : option string) : list (string * string) :=
  ("Accept", "application/vnd.github+json") ::
  match token with
  | Some t => if Py.nonempty t then [("Authorization", "Bearer " +:+ t)] else []
  | None => []
  end.

Definition _extract_reactions (reactions : Py.json) : Py.res (list (string * Py.json)) :=
  Py.foldM
    (fun acc k =>
       v ← Py.get reactions k (Py.JInt 0);
       pos ← Py.gt0 v;
       Py.Ok (if pos : bool then acc ++ [(k, v)] else acc))
    ["+1"; "-1"; "laugh"; "hooray"; "confused"; "heart"; "rocket"; "eyes"] [].

(** [ref["url"].rstrip("/")]-keyed deduplication, first occurrence first. *)
Definition dedup_refs (rs : list ref) : list ref :=
  fst (fold_left
         (fun (a : list ref * gset string) r =>
            let key := Py.rstrip_slash (ref_url r) in
            if bool_decide (key ∈ snd a) then a
            else (fst a ++ [r], {[key]} ∪ snd a))
         rs ([], ∅)).

Section GitHub.

(** [_http_get(url, headers, params)]: the network and the decoding of the
    answer; [Py.Raise] is a network error. *)
Variable _http_get : string -> list (string * string) -> list (string * string)
                     -> Py.res response.

(** [str(v)] for a float, a list or a dict. *)
Variable repr : Py.json -> string.

(** [f"{v}"] *)
Definition fmt (v : Py.json) : string :=
  match v with
  | Py.JStr s => s
  | Py.JInt z => Py.str_of_Z z
  | Py.JBool b => if b then "True" else "False"
  | Py.JNull => "None"
  | _ => repr v
  end.

(** [all_text += s] for a str [s]: a str is extended, a list takes the
    characters of [s] as new elements, anything else raises. *)
Definition iadd_str (all_text : Py.json) (s : string) : Py.res Py.json :=
  match all_text with
  | Py.JStr t => Py.Ok (Py.JStr (t +:+ s))
  | Py.JArr l => Py.Ok (Py.JArr (l ++ map (fun c => Py.JStr (String c EmptyString)) (Py.chars s)))
  | _ => Py.raise Py.TypeError ("unsupported operand type(s) for +=: '"
                                +:+ Py.type_name all_text +:+ "' and 'str'")
  end.

(** [extract_refs(all_text, repo_ctx)] where [all_text] need not be a str. *)
Definition extract_refs_of (all_text : Py.json) (repo_ctx : string) : Py.res (list ref) :=
  match all_text with
  | Py.JStr t => Py.Ok (extract_refs t repo_ctx)
  | _ => if Py.truthy all_text
         then Py.raise Py.TypeError "expected string or bytes-like object"
         else Py.Ok []
  end.

(** The state of the comment loops: the document and [all_text]. *)
Definition gstate : Type := document * Py.json.

(** Lines 270-287: the fields read from the issue object. *)
Definition read_issue (owner repo : string) (number : Z) (issue : Py.json)
                      (result : document) : Py.res document :=
  pr ← Py.get issue "pull_request" Py.JNull;
  let type' := if Py.truthy pr then "github_pr" else d_type result in
  let url' := if Py.truthy pr
              then "https://github.com/" +:+ owner +:+ "/" +:+ repo +:+ "/pull/"
                   +:+ Py.str_of_Z number
              else d_url result in
  title ← Py.get issue "title" (Py.JStr "");
  body ← Py.get issue "body" (Py.JStr "");
  state ← Py.get issue "state" (Py.JStr "");
  pr2 ← Py.get issue "pull_request" (Py.JObj []);
  merged ← Py.get pr2 "merged_at" Py.JNull;
  let state' := if Py.truthy merged then Py.JStr "merged" else state in
  labels_v ← Py.get issue "labels" (Py.JArr []);
  ls ← Py.iter labels_v;
  labels ← Py.foldM (fun acc l => n ← Py.get l "name" (Py.JStr ""); Py.Ok (acc ++ [n])) ls [];
  user ← Py.get issue "user" (Py.JObj []);
  login ← Py.get user "login" (Py.JStr "");
  created ← Py.get issue "created_at" (Py.JStr "");
  updated ← Py.get issue "updated_at" (Py.JStr "");
  count ← Py.get issue "comments" (Py.JInt 0);
  reactions_v ← Py.get issue "reactions" (Py.JObj []);
  reactions ← _extract_reactions reactions_v;
  Py.Ok (Document url' type' title (Py.or_ body (Py.JStr "")) state' labels
                  (d_comments result) (d_refs result)
                  [("author", login); ("created", created); ("updated", updated);
                   ("comment_count", count); ("reactions", Py.JObj reactions)]
                  (d_error result)).

(** Lines 315-326: [for c in comments], left by [break] once
    [fetched >= max_comments]. *)
Fixpoint add_comments (max_comments : Z) (cs : list Py.json) (fetched : Z) (st : gstate)
  : Py.res (Z * gstate) :=
  match cs with
  | [] => Py.Ok (fetched, st)
  | c :: cs' =>
      body0 ← Py.get c "body" (Py.JStr "");
      let body := Py.or_ body0 (Py.JStr "") in
      user ← Py.get c "user" (Py.JObj []);
      login ← Py.get user "login" (Py.JStr "");
      date ← Py.get c "created_at" (Py.JStr "");
      reactions_v ← Py.get c "reactions" (Py.JObj []);
      reactions ← _extract_reactions reactions_v;
      let result := add_comment (Comment login date body reactions) (fst st) in
      body_s ← Py.as_str body;
      all_text ← iadd_str (snd st) (String Py.newline body_s);
      let fetched' := (fetched + 1)%Z in
      if (max_comments <=? fetched')%Z then Py.Ok (fetched', (result, all_text))
      else add_comments max_comments cs' fetched' (result, all_text)
  end.

(** Lines 293-330: [while fetched < max_comments].  A page that does not
    end the loop adds a comment, so [max_comments] bounds the pages. *)
Fixpoint comment_pages (fuel : nat) (base : string) (headers : list (string * string))
                       (number max_comments per_page page fetched : Z) (st : gstate)
  : Py.res gstate :=
  match fuel with
  | O => Py.Ok st
  | S fuel' =>
      if negb (fetched <? max_comments)%Z then Py.Ok st
      else
        match _http_get (base +:+ "/issues/" +:+ Py.str_of_Z number +:+ "/comments") headers
                        [("page", Py.str_of_Z page); ("per_page", Py.str_of_Z per_page)] with
        | Py.Raise _ => Py.Ok st
        | Py.Ok r =>
            if (400 <=? status r)%Z then Py.Ok st
            else
              let comments := json_ r in
              if negb (Py.truthy comments) then Py.Ok st
              else
                cs ← Py.iter comments;
                fs ← add_comments max_comments cs fetched st;
                n ← Py.len comments;
                if (Z.of_nat n <? per_page)%Z then Py.Ok (snd fs)
                else comment_pages fuel' base headers number max_comments per_page
                                   (page + 1)%Z (fst fs) (snd fs)
        end
  end.

(** Lines 342-351, inside [try: ... except Exception: pass]: what was
    appended before an exception stays. *)
Fixpoint add_reviews (rs : list Py.json) (st : gstate) : gstate :=
  match rs with
  | [] => st
  | review :: rs' =>
      match Py.get review "body" (Py.JStr "") with
      | Py.Raise _ => st
      | Py.Ok body0 =>
          match Py.or_ body0 (Py.JStr "") with
          | Py.JStr body =>
              if Py.nonempty (Py.strip body) then
                match (user ← Py.get review "user" (Py.JObj []);
                       login ← Py.get user "login" (Py.JStr "");
                       date ← Py.get review "submitted_at" (Py.JStr "");
                       state ← Py.get review "state" (Py.JStr "COMMENTED");
                       Py.Ok (Comment login date
                                      (Py.JStr ("[Review: " +:+ fmt state +:+ "] " +:+ body))
                                      [])) with
                | Py.Raise _ => st
                | Py.Ok c =>
                    let result := add_comment c (fst st) in
                    match iadd_str (snd st) (String Py.newline body) with
                    | Py.Raise _ => (result, snd st)
                    | Py.Ok all_text => add_reviews rs' (result, all_text)
                    end
                end
              else add_reviews rs' st
          | _ => st
          end
      end
  end.

(** Lines 333-353. *)
Definition fetch_reviews (base : string) (headers : list (string * string)) (number : Z)
                         (st : gstate) : gstate :=
  if String.eqb (d_type (fst st)) "github_pr" then
    match _http_get (base +:+ "/pulls/" +:+ Py.str_of_Z number +:+ "/reviews") headers
                    [("per_page", "50")] with
    | Py.Raise _ => st
    | Py.Ok r =>
        if (status r <? 400)%Z && Py.truthy (json_ r) then
          match Py.iter (json_ r) with
          | Py.Raise _ => st
          | Py.Ok rs => add_reviews rs st
          end
        else st
    end
  else st.

(** [commit[:7]] inside an f-string. *)
Definition fmt_prefix7 (commit : Py.json) : Py.res string :=
  match commit with
  | Py.JStr s => Py.Ok (Py.prefix_n 7 s)
  | Py.JArr l => Py.Ok (repr (Py.JArr (firstn 7 l)))
  | _ => Py.raise Py.TypeError ("'" +:+ Py.type_name commit +:+ "' object is not subscriptable")
  end.

(** Lines 388-418: one timeline event. *)
Definition on_event (repo_ctx : string) (rs : list ref) (event : Py.json) : Py.res (list ref) :=
  etype ← Py.get event "event" (Py.JStr "");
  match etype with
  | Py.JStr "cross-referenced" =>
      s0 ← Py.get event "source" (Py.JObj []);
      source ← Py.get s0 "issue" (Py.JObj []);
      if Py.truthy source then
        repository ← Py.get source "repository" (Py.JObj []);
        src_repo ← Py.get repository "full_name" (Py.JStr repo_ctx);
        src_num ← Py.get source "number" Py.JNull;
        pr ← Py.get source "pull_request" Py.JNull;
        let src_type := if Py.truthy pr then "pr" else "issue" in
        if Py.truthy src_num then
          title ← Py.get source "title" (Py.JStr "");
          Py.Ok (rs ++ [Ref ("cross_ref_" +:+ src_type)
                            ("https://github.com/" +:+ fmt src_repo +:+ "/"
                             +:+ (if String.eqb src_type "pr" then "pull" else "issues")
                             +:+ "/" +:+ fmt src_num)
                            ("Referenced by " +:+ fmt src_repo +:+ "#" +:+ fmt src_num
                             +:+ ": " +:+ fmt title)])
        else Py.Ok rs
      else Py.Ok rs
  | Py.JStr "referenced" | Py.JStr "connected" =>
      commit ← Py.get event "commit_id" Py.JNull;
      if Py.truthy commit then
        short ← fmt_prefix7 commit;
        Py.Ok (rs ++ [Ref "commit"
                          ("https://github.com/" +:+ repo_ctx +:+ "/commit/" +:+ fmt commit)
                          ("Referenced in commit " +:+ short)])
      else Py.Ok rs
  | _ => Py.Ok rs
  end.

Definition _enrich_with_timeline (owner repo : string) (number : Z) (token : option string)
                                 (result : document) (repo_ctx : string) : Py.res document :=
  let headers := ("Accept", "application/vnd.github.mockingbird-preview+json")
                 :: tl (_gh_headers token) in
  match _http_get ("https://api.github.com/repos/" +:+ owner +:+ "/" +:+ repo +:+ "/issues/"
                   +:+ Py.str_of_Z number +:+ "/timeline") headers [("per_page", "100")] with
  | Py.Raise _ => Py.Ok result
  | Py.Ok r =>
      if negb (status r =? 200)%Z then Py.Ok result
      else
        events ← Py.iter (json_ r);
        rs ← Py.foldM (on_event repo_ctx) events (d_refs result);
        Py.Ok (set_refs (dedup_refs rs) result)
  end.

(** [base] in [fetch_github_issue] *)
Definition api_base (owner repo : string) : string :=
  "https://api.github.com/repos/" +:+ owner +:+ "/" +:+ repo.

Definition fetch_github_issue (owner repo : string) (number : Z) (token : option string)
                              (max_comments : Z) : Py.res document :=
  let base := api_base owner repo in
  let headers := _gh_headers token in
  let result :=
    Document ("https://github.com/" +:+ owner +:+ "/" +:+ repo +:+ "/issues/"
              +:+ Py.str_of_Z number)
             "github_issue" (Py.JStr "") (Py.JStr "") (Py.JStr "") [] [] [] [] None in
  let repo_ctx := owner +:+ "/" +:+ repo in
  match _http_get (base +:+ "/issues/" +:+ Py.str_of_Z number) headers [] with
  | Py.Raise e => Py.Ok (set_error ("Failed to fetch issue: " +:+ Py.exn_msg e) result)
  | Py.Ok r =>
      if (400 <=? status r)%Z
      then Py.Ok (set_error ("GitHub API " +:+ Py.str_of_Z (status r) +:+ ": "
                             +:+ Py.prefix_n 200 (text r)) result)
      else
        let issue := json_ r in
        result ← read_issue owner repo number issue result;
        let all_text := d_body result in
        let per_page := Z.min max_comments 100 in
        st ← comment_pages (S (Z.to_nat max_comments)) base headers number max_comments
                            per_page 1 0 (result, all_text);
        let st := fetch_reviews base headers number st in
        rs ← extract_refs_of (snd st) repo_ctx;
        _enrich_with_timeline owner repo number token (set_refs rs (fst st)) repo_ctx
  end.

End GitHub.

End FetchThread.

(** ** relevance_gate.py *)
Module RelevanceGate.

(** The credentials dict, its values strs; a key that is absent is [None]. *)
Record creds := Creds {
  grok_url : option string;
  grok_key : option string;
  grok_model : option string
}.

(** A candidate: [{"url", "anchor", "context"}]. *)
Record candidate := Candidate {
  url : string;
  anchor : string;
  context : string
}.

(** A scored candidate: the candidate's items and ["score"], ["reason"]. *)
Record scored := Scored {
  s_url : string;
  s_anchor : string;
  s_context : string;
  s_score : Py.pyfloat;
  s_reason : Py.json
}.

(** [dict(c, score=score, reason=reason)] and [{**c, "score": ..., "reason": ...}] *)
Definition with_score (c : candidate) (score : Py.pyfloat) (reason : Py.json) : scored :=
  Scored (url c) (anchor c) (context c) score reason.

(** The items of a scored candidate other than ["score"] and ["reason"]. *)
Definition base (s : scored) : candidate := Candidate (s_url s) (s_anchor s) (s_context s).

Definition dq : string := String (ascii_of_nat 34) EmptyString.
Definition nl : string := String Py.newline EmptyString.

Definition opt_str (o : option string) (d : string) : string :=
  match o with Some s => s | None => d end.

(** [enumerate(l, 1)] *)
Fixpoint enumerate_from {A} (i : Z) (l : list A) : list (Z * A) :=
  match l with
  | [] => []
  | x :: l' => (i, x) :: enumerate_from (i + 1)%Z l'
  end.

Definition cand_line (ic : Z * candidate) : string :=
  let c := snd ic in
  let anchor := Py.str_or (anchor c) (Py.prefix_n 60 (context c)) in
  let context := Py.prefix_n 150 (context c) in
  Py.str_of_Z (fst ic) +:+ ". anchor=" +:+ dq +:+ anchor +:+ dq +:+ " url=" +:+ url c
  +:+ nl +:+ "   context=" +:+ dq +:+ context +:+ dq.

Definition _build_prompt (query knowledge_state : string) (candidates : list candidate) : string :=
  let candidates_text := String.concat nl (map cand_line (enumerate_from 1 candidates)) in
  String.concat "" [
    "You are a research assistant evaluating whether web links are worth following."; nl;
    nl;
    "Original query: "; query; nl;
    nl;
    "What we already know: "; Py.str_or knowledge_state "Nothing yet."; nl;
    nl;
    "Candidate links to evaluate:"; nl;
    candidates_text; nl;
    nl;
    "For each candidate, score 0.0-1.0 how likely following this link will provide NEW, RELEVANT information to answer the original query."; nl;
    "- Score > 0.7: definitely follow (directly relevant, likely new info)"; nl;
    "- Score 0.4-0.7: maybe follow (somewhat relevant or unclear)"; nl;
    "- Score < 0.4: skip (irrelevant, duplicate, or noise)"; nl;
    nl;
    "Respond with ONLY a JSON array, no explanation outside JSON:"; nl;
    "["; nl;
    "  {"; dq; "id"; dq; ": 1, "; dq; "score"; dq; ": 0.9, "; dq; "reason"; dq; ": ";
           dq; "one sentence"; dq; "},"; nl;
    "  {"; dq; "id"; dq; ": 2, "; dq; "score"; dq; ": 0.2, "; dq; "reason"; dq; ": ";
           dq; "one sentence"; dq; "},"; nl;
    "  ..."; nl;
    "]" ].

(** [text.split("\n")[1:]] joined by ["\n"] again: what follows the first
    newline, nothing when there is none. *)
Fixpoint after_first_newline (l : list ascii) : list ascii :=
  match l with
  | [] => []
  | c :: l' => if Ascii.eqb c Py.newline then l' else after_first_newline l'
  end.

(** Lines 185-188: the text handed to [json.loads]. *)
Definition strip_fences (raw : string) : string :=
  let text := Py.strip raw in
  if Py.startswith "```" text
  then Py.strip (Py.rstrip_by (Ascii.eqb "`"%char)
                              (Py.str (after_first_newline (Py.chars text))))
  else text.

(** ["id" in item] *)
Definition contains_id (item : Py.json) : Py.res bool :=
  match item with
  | Py.JObj items => Py.Ok (match Py.lookup "id" items with Some _ => true | None => false end)
  | Py.JStr s => Py.Ok (Re.search (Re.Lit false "id") s)
  | Py.JArr l => Py.Ok (existsb (fun v => match v with
                                          | Py.JStr s => String.eqb s "id"
                                          | _ => false
                                          end) l)
  | _ => Py.raise Py.TypeError ("argument of type '" +:+ Py.type_name item
                                +:+ "' is not iterable")
  end.

(** [item["id"]] *)
Definition getitem_id (item : Py.json) : Py.res Py.json :=
  match item with
  | Py.JObj items =>
      match Py.lookup "id" items with
      | Some v => Py.Ok v
      | None => Py.raise Py.KeyError "'id'"
      end
  | Py.JStr _ => Py.raise Py.TypeError "string indices must be integers, not 'str'"
  | Py.JArr _ => Py.raise Py.TypeError "list indices must be integers or slices, not str"
  | _ => Py.raise Py.TypeError ("'" +:+ Py.type_name item +:+ "' object is not subscriptable")
  end.

(** A dict key must be hashable. *)
Definition hashable (k : Py.json) : Py.res unit :=
  match k with
  | Py.JArr _ | Py.JObj _ =>
      Py.raise Py.TypeError ("unhashable type: '" +:+ Py.type_name k +:+ "'")
  | _ => Py.Ok tt
  end.

(** [k == i] for an int [i]: [1], [1.0] and [True] are the same key. *)
Definition key_is (i : Z) (k : Py.json) : bool :=
  match k with
  | Py.JInt z => (z =? i)%Z
  | Py.JBool b => ((if b then 1 else 0) =? i)%Z
  | Py.JFloat f => Py.feq f (Py.FFin (inject_Z i))
  | _ => false
  end.

(** [score_map]: the bindings [item["id"]: item] in the order they were
    made.  A later binding of an equal key replaces the earlier one, so a
    lookup finds the last binding of the key. *)
Definition bind_item (acc : list (Py.json * Py.json)) (item : Py.json)
  : Py.res (list (Py.json * Py.json)) :=
  has ← contains_id item;
  if has : bool then
    k ← getitem_id item;
    _ ← hashable k;
    Py.Ok (acc ++ [(k, item)])
  else Py.Ok acc.

Definition score_map_of (scores : Py.json) : Py.res (list (Py.json * Py.json)) :=
  items ← Py.iter scores;
  Py.foldM bind_item items [].

(** [score_map.get(i, {})] *)
Definition score_map_get (score_map : list (Py.json * Py.json)) (i : Z) : Py.json :=
  match find (fun kv => key_is i (fst kv)) (rev score_map) with
  | Some kv => snd kv
  | None => Py.JObj []
  end.

(** [result.sort(key=lambda x: x["score"], reverse=True)].  Python's sort is
    stable, also with [reverse=True], and compares the keys with [<]: an
    item goes before the first item whose key is smaller than its own. *)
Fixpoint insert_desc (x : scored) (l : list scored) : list scored :=
  match l with
  | [] => [x]
  | y :: l' => if Py.flt (s_score y) (s_score x) then x :: l else y :: insert_desc x l'
  end.

Definition sort_desc (l : list scored) : list scored :=
  fold_left (fun acc x => insert_desc x acc) l [].

Section Gate.

(** Lines 64-107 of [_call_llm]: the POST to [url] with the key, the model
    and the prompt, and the decoding of the answer (the content of the
    first choice, or the joined deltas of an event stream). *)
Variable post_chat : string -> string -> string -> string -> Py.res Py.json.

(** What [_load_creds()] finds in the credentials file and the environment. *)
Variable stored_creds : creds.

(** [json.loads]; [None] is [json.JSONDecodeError]. *)
Variable json_loads : string -> option Py.json.

(** [float(s)] for a str; [None] is [ValueError]. *)
Variable float_of_str : string -> option Py.pyfloat.

(** [float(n)] for an int beyond 2^53; [None] is [OverflowError]. *)
Variable float_of_big : Z -> option Py.pyfloat.

(** The prompts sent to the service, and the outcome. *)
Definition called (A : Type) : Type := list string * Py.res A.

Definition _call_llm (prompt : string) (c : creds) : called Py.json :=
  let url := Py.rstrip_slash (opt_str (grok_url c) "") +:+ "/chat/completions" in
  let api_key := opt_str (grok_key c) "" in
  let model := opt_str (grok_model c) "grok-4.1-fast" in
  if negb (Py.nonempty api_key)
  then ([], Py.raise Py.ValueError "No LLM API key configured (grok_key missing)")
  else ([prompt], post_chat url api_key model prompt).

(** [float(v)] *)
Definition to_float (v : Py.json) : Py.res Py.pyfloat :=
  match v with
  | Py.JFloat f => Py.Ok f
  | Py.JInt z =>
      if (Z.abs z <=? 2 ^ 53)%Z then Py.Ok (Py.FFin (inject_Z z))
      else match float_of_big z with
           | Some f => Py.Ok f
           | None => Py.raise Py.OverflowError "int too large to convert to float"
           end
  | Py.JBool b => Py.Ok (if b then Py.f_one else Py.f_zero)
  | Py.JStr s =>
      match float_of_str s with
      | Some f => Py.Ok f
      | None => Py.raise Py.ValueError ("could not convert string to float: '" +:+ s +:+ "'")
      end
  | _ => Py.raise Py.TypeError ("float() argument must be a string or a real number, not '"
                                +:+ Py.type_name v +:+ "'")
  end.

(** Lines 197-205: the body of the loop that merges the scores into the
    candidates, for the candidate [snd ic] at position [fst ic]. *)
Definition merge_step (score_map : list (Py.json * Py.json)) (threshold : Py.pyfloat)
                      (result : list scored) (ic : Z * candidate) : Py.res (list scored) :=
  let s := score_map_get score_map (fst ic) in
  sv ← Py.get s "score" (Py.JFloat Py.f_half);
  score ← to_float sv;
  if Py.fge score threshold then
    reason ← Py.get s "reason" (Py.JStr "");
    Py.Ok (result ++ [with_score (snd ic) score reason])
  else Py.Ok result.

Definition merge_scores (score_map : list (Py.json * Py.json)) (threshold : Py.pyfloat)
                        (candidates : list candidate) : Py.res (list scored) :=
  Py.foldM (merge_step score_map threshold) (enumerate_from 1 candidates) [].

(** Lines 183-209, for a [raw] that is a str. *)
Definition parse_and_merge (raw : string) (threshold : Py.pyfloat)
                           (candidates : list candidate) : Py.res (list scored) :=
  match json_loads (strip_fences raw) with
  | None => Py.Ok (map (fun c => with_score c Py.f_half (Py.JStr "parse error")) candidates)
  | Some scores =>
      score_map ← score_map_of scores;
      result ← merge_scores score_map threshold candidates;
      Py.Ok (sort_desc result)
  end.

(** [if creds is None: creds = _load_creds()] *)
Definition resolve_creds (c : option creds) : creds :=
  match c with Some c => c | None => stored_creds end.

Definition score_candidates (query : string) (candidates : list candidate)
                            (knowledge_state : string) (threshold : Py.pyfloat)
                            (c : option creds) : called (list scored) :=
  match candidates with
  | [] => ([], Py.Ok [])
  | _ :: _ =>
      let c := resolve_creds c in
      let prompt := _build_prompt query knowledge_state candidates in
      match _call_llm prompt c with
      | (calls, Py.Raise _) =>
          (calls, Py.Ok (map (fun c => with_score c Py.f_half (Py.JStr "LLM unavailable"))
                             candidates))
      | (calls, Py.Ok (Py.JStr raw)) => (calls, parse_and_merge raw threshold candidates)
      | (calls, Py.Ok v) =>
          (calls, Py.raise Py.AttributeError ("'" +:+ Py.type_name v
                                              +:+ "' object has no attribute 'strip'"))
      end
  end.

End Gate.

End RelevanceGate.

(** ** chain_tracker.py *)
Module ChainTracker.
Import RelevanceGate.

(** A link of a web page: [{"url", "anchor", "context"}]. *)
Record link := Link {
  l_url : string;
  l_anchor : string;
  l_context : string
}.

Record pcomment := PComment {
  pc_author : string;
  pc_date : string;
  pc_body : string
}.

(** What [fetch_thread.fetch_thread_url] hands to [track]: the keys of the
    Thread Document that [track] reads, with the types its docstring gives
    them.  A document without ["links"] has [p_links = []]. *)
Record page := Page {
  p_type : string;
  p_title : string;
  p_body : string;
  p_comments : list pcomment;
  p_links : list link;
  p_refs : list FetchThread.ref
}.

Record node := Node {
  n_url : string;
  n_depth : Z;
  n_type : string;
  n_title : string;
  n_body : string;
  n_comments : list pcomment;
  n_score : Py.pyfloat;
  n_reason : Py.json
}.

(** A queue entry: [(url, depth, score, reason)]. *)
Record entry := Entry {
  e_url : string;
  e_depth : Z;
  e_score : Py.pyfloat;
  e_reason : Py.json
}.

(** What the loop does to the world and to its lists, in order. *)
Inductive event :=
| Fetch (u : string)                           (* fetch_thread_url(u) is called *)
| Record_ (e : entry) (n : node)               (* nodes.append(n), n built from entry e *)
| Gate (candidates : list candidate)           (* score_candidates(candidates=...) is called *)
| Enqueue (parent : node) (es : list entry).   (* queue.append(e) for e in es, expanding parent *)

Record state := State {
  visited : gset string;
  nodes : list node;
  knowledge_state : string;
  queue : list entry;
  trace : list event;
  crashed : option Py.exn
}.

(** The answers of the world during one iteration of the loop. *)
Record answers := Answers {
  fetched : Py.res page;
  post_chat : string -> string -> string -> string -> Py.res Py.json
}.

(** The two loops of [_get_candidates]: the list and the set [seen]. *)
Definition add_candidate (c : candidate) (a : list candidate * gset string)
  : list candidate * gset string :=
  if Py.nonempty (url c) && negb (bool_decide (url c ∈ snd a))
  then (fst a ++ [c], {[url c]} ∪ snd a)
  else a.

Definition of_link (l : link) : candidate := Candidate (l_url l) (l_anchor l) (l_context l).
Definition of_ref (r : FetchThread.ref) : candidate :=
  Candidate (FetchThread.ref_url r) (FetchThread.ref_type r) (FetchThread.ref_context r).

Definition _get_candidates (data : page) : list candidate :=
  let a := fold_left (fun a l => add_candidate (of_link l) a) (p_links data) ([], ∅) in
  let a := fold_left (fun a r => add_candidate (of_ref r) a) (p_refs data) a in
  fst a.

Section Tracker.

Variable json_loads : string -> option Py.json.
Variable float_of_str : string -> option Py.pyfloat.
Variable float_of_big : Z -> option Py.pyfloat.

(** What [relevance_gate._load_creds()] returns at the start of [track]. *)
Variable creds_ : creds.

Definition _update_knowledge (post : string -> string -> string -> string -> Py.res Py.json)
                             (knowledge_state : string) (n : node) : string :=
  let title := n_title n in
  let body := Py.prefix_n 500 (n_body n) in
  let comments_text :=
    String.concat " " (map (fun c => Py.prefix_n 100 (pc_body c)) (firstn 5 (n_comments n))) in
  let prompt :=
    String.concat "" [
      "Current knowledge state: "; Py.str_or knowledge_state "Nothing known yet."; nl;
      nl;
      "Just read: "; dq; title; dq; nl;
      "Content summary: "; body; nl;
      (if Py.nonempty comments_text then "Key comments: " +:+ comments_text else ""); nl;
      nl;
      "Update the knowledge state in 1-2 sentences:"; nl;
      "- What new facts were learned?"; nl;
      "- What is still unclear or needs more investigation?"; nl;
      nl;
      "Respond with ONLY the updated knowledge state text, no preamble." ] in
  match snd (_call_llm post prompt creds_) with
  | Py.Ok (Py.JStr raw) => Py.strip raw
  | _ =>
      if Py.nonempty knowledge_state
      then knowledge_state +:+ " Also read: " +:+ title +:+ "."
      else "Read: " +:+ title +:+ "."
  end.

Definition entry_of (depth : Z) (c : scored) : entry :=
  Entry (s_url c) (depth + 1)%Z (s_score c) (s_reason c).

(** One iteration of [while queue:] in [track]. *)
Definition iteration (max_depth : Z) (threshold : Py.pyfloat) (max_per_level : Z)
                     (query : string) (a : answers) (st : state) : state :=
  match crashed st, queue st with
  | Some _, _ => st
  | None, [] => st
  | None, e :: q =>
      let canon := Py.rstrip_slash (e_url e) in
      if bool_decide (canon ∈ visited st) || (max_depth <? e_depth e)%Z
      then State (visited st) (nodes st) (knowledge_state st) q (trace st) None
      else
        let visited' := {[canon]} ∪ visited st in
        let trace1 := trace st ++ [Fetch (e_url e)] in
        match fetched a with
        | Py.Raise _ => State visited' (nodes st) (knowledge_state st) q trace1 None
        | Py.Ok data =>
            let n := Node (e_url e) (e_depth e) (p_type data) (p_title data)
                          (Py.prefix_n 2000 (p_body data)) (firstn 10 (p_comments data))
                          (e_score e) (e_reason e) in
            let nodes' := nodes st ++ [n] in
            let trace2 := trace1 ++ [Record_ e n] in
            let ks := _update_knowledge (post_chat a) (knowledge_state st) n in
            if (max_depth <=? e_depth e)%Z
            then State visited' nodes' ks q trace2 None
            else
              match _get_candidates data with
              | [] => State visited' nodes' ks q trace2 None
              | c0 :: cs =>
                  let candidates := firstn 20 (c0 :: cs) in
                  let trace3 := trace2 ++ [Gate candidates] in
                  match snd (score_candidates (post_chat a) creds_ json_loads float_of_str
                                              float_of_big query candidates ks threshold
                                              (Some creds_)) with
                  | Py.Raise x => State visited' nodes' ks q trace3 (Some x)
                  | Py.Ok scored_ =>
                      let es := map (entry_of (e_depth e)) (Py.take_upto max_per_level scored_) in
                      State visited' nodes' ks (q ++ es) (trace3 ++ [Enqueue n es]) None
                  end
              end
        end
  end.

(** The state [track] starts its loop in. *)
Definition init (seed_urls : list string) : state :=
  State ∅ [] "" (map (fun u => Entry u 0 Py.f_one (Py.JStr "seed")) seed_urls) [] None.

(** The state after the iterations that a list of answers allows. *)
Definition run (max_depth : Z) (threshold : Py.pyfloat) (max_per_level : Z) (query : string)
               (seed_urls : list string) (world : list answers) : state :=
  fold_left (fun st a => iteration max_depth threshold max_per_level query a st)
            world (init seed_urls).

(** The dict [track] returns. *)
Record result := Result {
  r_query : string;
  r_knowledge_state : string;
  r_nodes : list node;
  r_total_fetched : nat
}.

(** [track]: its result once the queue is empty; [None] while the loop is
    still running on the answers given, or when an exception ended it. *)
Definition track (world : list answers) (query : string) (seed_urls : list string)
                 (max_depth : Z) (threshold : Py.pyfloat) (max_per_level : Z) : option result :=
  let st := run max_depth threshold max_per_level query seed_urls world in
  match crashed st, queue st with
  | None, [] => Some (Result query (knowledge_state st) (nodes st) (length (nodes st)))
  | _, _ => None
  end.

End Tracker.

(** The candidate list of step 6 of the specification's orchestrator:
    refs, then links, one entry per canonical URL, at most 20. *)
Definition spec_add (c : candidate) (a : list candidate * gset string)
  : list candidate * gset string :=
  let canon := Py.rstrip_slash (url c) in
  if bool_decide (canon ∈ snd a) then a else (fst a ++ [c], {[canon]} ∪ snd a).

Definition spec_candidates (data : page) : list candidate :=
  let a := fold_left (fun a r => spec_add (of_ref r) a) (p_refs data) ([], ∅) in
  let a := fold_left (fun a l => spec_add (of_link l) a) (p_links data) a in
  firstn 20 (fst a).

(** The list [track] hands to [score_candidates] (when it is not empty). *)
Definition gate_candidates (data : page) : list candidate :=
  firstn 20 (_get_candidates data).

End ChainTracker.

(** ** Predicates used by the statements *)
Module Props.
Import RelevanceGate ChainTracker.

(** [is_ok r]: the call returned. *)
Definition is_ok {A} (r : Py.res A) : bool :=
  match r with Py.Ok _ => true | Py.Raise _ => false end.

(** Every output item is an input candidate with a score and a reason: the
    items come from pairwise distinct positions [idxs] of the candidate
    list, the k-th item from position [idxs !! k]. *)
Definition framed (candidates : list candidate) (out : list scored) : Prop :=
  exists idxs : list nat,
    NoDup idxs /\
    map (fun i => candidates !! i) idxs = map (fun s => Some (base s)) out.

(** Descending by score. *)
Definition descending (l : list scored) : Prop :=
  StronglySorted (fun a b => Py.fge (s_score a) (s_score b) = true) l.

(** No score is a NaN. *)
Definition scores_ordered (l : list scored) : Prop :=
  Forall (fun s => Py.notnan (s_score s) = true) l.

(** The items of [l] whose score [==] v, in the order of [l]. *)
Definition ties (v : Py.pyfloat) (l : list scored) : list scored :=
  filter (fun s => Py.feq (s_score s) v = true) l.

Section Scores.

Variable float_of_str : string -> option Py.pyfloat.
Variable float_of_big : Z -> option Py.pyfloat.

(** The response is an array of [{"id", "score", "reason"}] objects: each
    item is an object, an ["id"] is a number, a str or null, and a
    ["score"] is something [float()] accepts. *)
Definition entry_ok (item : Py.json) : bool :=
  match item with
  | Py.JObj items =>
      match Py.lookup "id" items with
      | Some k => is_ok (hashable k)
      | None => true
      end
      && match Py.lookup "score" items with
         | Some v => is_ok (to_float float_of_str float_of_big v)
         | None => true
         end
  | _ => false
  end.

(** The bindings of [score_map] for an array of objects. *)
Definition id_bindings (items : list Py.json) : list (Py.json * Py.json) :=
  omap (fun item => match item with
                    | Py.JObj kvs => match Py.lookup "id" kvs with
                                     | Some k => Some (k, item)
                                     | None => None
                                     end
                    | _ => None
                    end) items.

(** The entry for position [i]: the last item whose ["id"] is [i]. *)
Definition entry_for (items : list Py.json) (i : Z) : option Py.json :=
  find (fun item => match item with
                    | Py.JObj kvs => match Py.lookup "id" kvs with
                                     | Some k => key_is i k
                                     | None => false
                                     end
                    | _ => false
                    end) (rev items).

(** The score for position [i]: the entry's ["score"], 0.5 without one. *)
Definition score_for (items : list Py.json) (i : Z) : Py.pyfloat :=
  match entry_for items i with
  | Some (Py.JObj kvs) =>
      match Py.lookup "score" kvs with
      | Some v => match to_float float_of_str float_of_big v with
                  | Py.Ok f => f
                  | Py.Raise _ => Py.f_half
                  end
      | None => Py.f_half
      end
  | _ => Py.f_half
  end.

Definition reason_for (items : list Py.json) (i : Z) : Py.json :=
  match entry_for items i with
  | Some (Py.JObj kvs) => Py.dict_get kvs "reason" (Py.JStr "")
  | _ => Py.JStr ""
  end.

(** Every candidate with the score and the reason for its position. *)
Definition assigned (items : list Py.json) (candidates : list candidate) : list scored :=
  map (fun ic => with_score (snd ic) (score_for items (fst ic)) (reason_for items (fst ic)))
      (enumerate_from 1 candidates).

End Scores.

(** The events of a trace, by kind. *)
Definition fetches (tr : list event) : list string :=
  omap (fun ev => match ev with Fetch u => Some u | _ => None end) tr.

Definition recorded (tr : list event) : list node :=
  omap (fun ev => match ev with Record_ _ n => Some n | _ => None end) tr.

Definition seed_entry (u : string) : entry := Entry u 0 Py.f_one (Py.JStr "seed").

(** *** The crawl *)

(** The bounds on what one node hands to the relevance gate and to the queue. *)
Definition bounded (max_per_level : Z) (ev : event) : Prop :=
  match ev with
  | Gate cs => (length cs <= 20)%nat
  | Enqueue _ es => (0 <= max_per_level)%Z -> (Z.of_nat (length es) <= max_per_level)%Z
  | _ => True
  end.

(** The canonical URLs fetched so far are pairwise distinct and visited. *)
Definition fetched_once (st : state) : Prop :=
  NoDup (map Py.rstrip_slash (fetches (trace st)))
  /\ forall u, u ∈ fetches (trace st) -> Py.rstrip_slash u ∈ visited st.

(** Where a queue entry comes from: it is the entry of a seed, or it was
    put on the queue while a recorded node [p] was expanded, one level
    below [p]. *)
Definition origin (seeds : list string) (tr : list event) (e : entry) : Prop :=
  e ∈ map seed_entry seeds
  \/ exists p es, Enqueue p es ∈ tr /\ p ∈ recorded tr /\ e ∈ es
                  /\ e_depth e = (n_depth p + 1)%Z.

(** A node is recorded with the url and the depth of its entry, between 0
    and [max_depth], and its entry has an origin in what happened before. *)
Definition record_ok (seeds : list string) (max_depth : Z) (tr : list event) (ev : event)
  : Prop :=
  match ev with
  | Record_ e n =>
      n_url n = e_url e /\ n_depth n = e_depth e
      /\ (0 <= n_depth n <= max_depth)%Z /\ origin seeds tr e
  | _ => True
  end.

Inductive valid (seeds : list string) (max_depth : Z) : list event -> Prop :=
| valid_nil : valid seeds max_depth []
| valid_snoc tr ev :
    valid seeds max_depth tr -> record_ok seeds max_depth tr ev ->
    valid seeds max_depth (tr ++ [ev]).

Definition depth_inv (seeds : list string) (max_depth : Z) (st : state) : Prop :=
  nodes st = recorded (trace st)
  /\ (forall e, e ∈ queue st -> origin seeds (trace st) e)
  /\ valid seeds max_depth (trace st).

(** [seen] holds the URLs of the candidates collected so far, each once. *)
Definition seen_inv (a : list candidate * gset string) : Prop :=
  (forall u, u ∈ snd a <-> u ∈ map url (fst a)) /\ NoDup (map url (fst a)).

End Props.

(** ** Concrete inputs of the examples *)
Module Inputs.
Import RelevanceGate ChainTracker.

(** The GitHub API answers 200 with a body that is not JSON. *)
Definition http_not_json (u : string) (headers params : list (string * string))
  : Py.res FetchThread.response :=
  Py.Ok (FetchThread.Response 200 "<html><body>Bad gateway</body></html>" Py.JNull).

Definition no_repr (v : Py.json) : string := "".

Definition creds1 : creds := Creds (Some "https://llm.example/v1") (Some "k") None.

Definition cand1 : candidate := Candidate "https://a.example/x" "first" "ctx one".
Definition cand2 : candidate := Candidate "https://a.example/y" "second" "ctx two".
Definition cand3 : candidate := Candidate "https://a.example/z" "third" "ctx three".

Definition cand_x : candidate := Candidate "https://a.example/x" "first" "ctx one".
Definition cand_y : candidate := Candidate "https://a.example/y" "second" "ctx two".

(** The service answers with the JSON text null. *)
Definition post_null (u key model prompt : string) : Py.res Py.json :=
  Py.Ok (Py.JStr "null").

(** The service answers with prose. *)
Definition post_prose (u key model prompt : string) : Py.res Py.json :=
  Py.Ok (Py.JStr "Sorry, I cannot help with that.").

(** A well-formed answer: scores for the positions 1 to 3. *)
Definition scores_text : string :=
  String.concat dq [
    "[{"; "id"; ": 1, "; "score"; ": 0.25, "; "reason"; ": "; "noise"; "}, {";
    "id"; ": 2, "; "score"; ": 0.75, "; "reason"; ": "; "relevant"; "}, {";
    "id"; ": 3, "; "score"; ": 0.75, "; "reason"; ": "; "also relevant"; "}]" ].

(** The service scores a list of candidates with [scores_text] and
    answers any other prompt with a summary. *)
Definition post_scores (u key model prompt : string) : Py.res Py.json :=
  if Py.startswith "You are a research assistant" prompt
  then Py.Ok (Py.JStr scores_text)
  else Py.Ok (Py.JStr "The start page links to two pages.").

(** The service is down. *)
Definition post_down (u key model prompt : string) : Py.res Py.json :=
  Py.raise Py.OSError "connection refused".

(** [json.loads] on the texts the examples decode. *)
Definition loads1 (s : string) : option Py.json :=
  if String.eqb s "null" then Some Py.JNull
  else if String.eqb s scores_text
  then Some (Py.JArr [
    Py.JObj [("id", Py.JInt 1); ("score", Py.JFloat (Py.FFin (1 # 4))); ("reason", Py.JStr "noise")];
    Py.JObj [("id", Py.JInt 2); ("score", Py.JFloat (Py.FFin (3 # 4))); ("reason", Py.JStr "relevant")];
    Py.JObj [("id", Py.JInt 3); ("score", Py.JFloat (Py.FFin (3 # 4))); ("reason", Py.JStr "also relevant")]])
  else None.

Definition no_float_of_str (s : string) : option Py.pyfloat := None.
Definition no_float_of_big (z : Z) : option Py.pyfloat := None.

(** A page with one link and one ref. *)
Definition page1 : page :=
  Page "web_page" "T" "B" []
       [Link "https://a.example/link" "a link" "near the link"]
       [FetchThread.Ref "url" "https://a.example/ref" "near the ref"].

(** A page whose link and ref differ by a trailing slash only. *)
Definition page2 : page :=
  Page "web_page" "T" "B" []
       [Link "https://a.example/p" "a link" "near the link"]
       [FetchThread.Ref "url" "https://a.example/p/" "near the ref"].

(** A crawl: two seeds with the same canonical URL; the seed page has two
    links, of which the scores keep the second; the page behind it has
    no links. *)
Definition seeds1 : list string := ["https://s.example/start/"; "https://s.example/start"].

Definition page_seed : page :=
  Page "web_page" "Start" "Body of the start page" []
       [Link "https://a.example/x" "first" "ctx one";
        Link "https://a.example/y" "second" "ctx two"]
       [].

Definition page_leaf : page := Page "web_page" "Leaf" "Body of the leaf" [] [] [].

Definition world1 : list answers :=
  [Answers (Py.Ok page_seed) post_scores;
   Answers (Py.Ok page_leaf) post_scores;
   Answers (Py.Ok page_leaf) post_scores].

Definition entry_seed : entry := Entry "https://s.example/start/" 0 Py.f_one (Py.JStr "seed").
Definition node_seed : node :=
  Node "https://s.example/start/" 0 "web_page" "Start" "Body of the start page" []
       Py.f_one (Py.JStr "seed").
Definition entry_y : entry :=
  Entry "https://a.example/y" 1 (Py.FFin (3 # 4)) (Py.JStr "relevant").
Definition node_y : node :=
  Node "https://a.example/y" 1 "web_page" "Leaf" "Body of the leaf" []
       (Py.FFin (3 # 4)) (Py.JStr "relevant").

(** A seed page with three links, of which the scores keep the last two. *)
Definition page_three : page :=
  Page "web_page" "Start" "Body of the start page" []
       [Link "https://a.example/x" "first" "ctx one";
        Link "https://a.example/y" "second" "ctx two";
        Link "https://a.example/z" "third" "ctx three"]
       [].

Definition world_three : list answers := [Answers (Py.Ok page_three) post_scores].

Definition entry_z : entry :=
  Entry "https://a.example/z" 1 (Py.FFin (3 # 4)) (Py.JStr "also relevant").

(** The same crawl when the service answers null on the seed page. *)
Definition world_null : list answers := [Answers (Py.Ok page_seed) post_null].

End Inputs.

(** ** Further predicates *)
Module MoreProps.
Import FetchThread RelevanceGate ChainTracker Props.

(** *** Reference extraction *)

(** The canonical URL of a ref: the key of [_add]. *)
Definition canon (r : ref) : string := Py.rstrip_slash (ref_url r).

(** [seen_urls] holds the canonical URL of every ref, and no two refs
    share one. *)
Definition acc_inv (a : acc) : Prop :=
  NoDup (map canon (refs a)) /\ forall r, r ∈ refs a -> canon r ∈ seen_urls a.

(** A ref is a plain URL, or one of the six GitHub kinds with a URL on
    github.com. *)
Definition ref_shape (r : ref) : Prop :=
  ref_type r = "url"
  \/ (ref_type r ∈ ["issue"; "pr"; "discussion"; "commit"; "duplicate"; "related"]
      /\ Py.startswith "https://github.com/" (ref_url r) = true).

(** The kinds whose branch of [extract_refs] is under [if repo_context:]. *)
Definition needs_context (k : kind) : bool :=
  match k with
  | gh_ref | full_sha | duplicate | related_ref => true
  | _ => false
  end.

(** *** Inputs for the GitHub fetcher: an issue with two comments; every
    other request is refused. *)
Definition issue_json : Py.json :=
  Py.JObj [("title", Py.JStr "T"); ("body", Py.JStr "See also #42"); ("state", Py.JStr "open")].

Definition http_issue (u : string) (headers params : list (string * string))
  : Py.res response :=
  if String.eqb u "https://api.github.com/repos/o/r/issues/1"
  then Py.Ok (Response 200 "" issue_json)
  else if String.eqb u "https://api.github.com/repos/o/r/issues/1/comments"
  then Py.Ok (Response 200 ""
                (Py.JArr [Py.JObj [("body", Py.JStr "first")];
                          Py.JObj [("body", Py.JStr "second, see o/r#42")]]))
  else Py.Ok (Response 404 "Not Found" Py.JNull).

Definition http_refused (u : string) (headers params : list (string * string))
  : Py.res response :=
  Py.Ok (Response 404 "Not Found" Py.JNull).

(** The patterns that work without a repository context. *)
Definition context_free_patterns : list (Re.re * kind) :=
  List.filter (fun pk => negb (needs_context (snd pk))) _REF_PATTERNS.

(** *** The relevance gate *)

(** The answer of [score_candidates] when it could not score. *)
Definition unscored (reason : string) (candidates : list candidate) : list scored :=
  map (fun c => with_score c Py.f_half (Py.JStr reason)) candidates.

(** At least the threshold. *)
Definition passes (threshold : Py.pyfloat) (s : scored) : Prop :=
  Py.fge (s_score s) threshold = true.

(** No newline in [s]. *)
Definition one_line (s : string) : bool :=
  forallb (fun c => negb (Ascii.eqb c Py.newline)) (Py.chars s).

(** A fenced answer: the opening fence with an info string, the payload on
    lines of its own, the closing fence. *)
Definition fenced (info payload : string) : string :=
  "```" +:+ info +:+ nl +:+ payload +:+ nl +:+ "```".

(** The service answers with a fence on one line. *)
Definition post_one_line (u key model prompt : string) : Py.res Py.json :=
  Py.Ok (Py.JStr "```[]```").

(** Credentials without a key. *)
Definition creds_no_key : creds := Creds (Some "https://llm.example/v1") None None.

(** *** The crawl's result *)

(** The caps of a node: 2000 characters of body, 10 comments. *)
Definition node_capped (n : node) : Prop :=
  (String.length (n_body n) <= 2000)%nat /\ (length (n_comments n) <= 10)%nat.

(** The canonical URL of a node. *)
Definition canon_node (n : node) : string := Py.rstrip_slash (n_url n).

(** The nodes are the pages fetched, in the order of the fetches. *)
Definition nodes_fetched (st : state) : Prop :=
  sublist (map n_url (nodes st)) (fetches (trace st)).

(** Breadth first: the depths of the nodes and then of the queue never go
    down, and the queue spans at most two levels. *)
Definition level_order (ns : list node) (qu : list entry) : Prop :=
  StronglySorted Z.le (map n_depth ns)
  /\ StronglySorted Z.le (map e_depth qu)
  /\ (forall n e, n ∈ ns -> e ∈ qu -> (n_depth n <= e_depth e)%Z)
  /\ (forall e q e', qu = e :: q -> e' ∈ q -> (e_depth e' <= e_depth e + 1)%Z).

End MoreProps.

(* ===================================================================== *)
(** * Part II. Theorems                                                  *)
(* ===================================================================== *)

(** ** Reference extraction *)
Module FetchThreadFacts.
Import FetchThread.

(** C4. On the text "See also #42 and duplicate of #7" with the repository
    context "a/b", [extract_refs] returns exactly two refs, both of type
    issue: the [issue_ref] pattern runs first and takes the URLs of #42 and
    #7, so the later [duplicate] and [related_ref] matches find their URL
    in [seen_urls] and add nothing.  No ref of type related or duplicate
    is returned. *)
Theorem extract_refs_see_also_duplicate :
  extract_refs "See also #42 and duplicate of #7" "a/b"
  = [ Ref "issue" "https://github.com/a/b/issues/42" "See also #42 and duplicate of #7";
      Ref "issue" "https://github.com/a/b/issues/7" "See also #42 and duplicate of #7" ]
  /\ Forall (fun r => ref_type r <> "related" /\ ref_type r <> "duplicate")
            (extract_refs "See also #42 and duplicate of #7" "a/b").
Proof.
  assert (E : extract_refs "See also #42 and duplicate of #7" "a/b"
              = [ Ref "issue" "https://github.com/a/b/issues/42" "See also #42 and duplicate of #7";
                  Ref "issue" "https://github.com/a/b/issues/7" "See also #42 and duplicate of #7" ])
    by (vm_compute; reflexivity).
  split; [exact E|].
  rewrite E. repeat constructor; simpl; congruence.
Qed.

(** The two later patterns do match the text: the refs are lost to the
    deduplication, not to the matching. *)
Lemma duplicate_and_related_match :
  map (fun mt => Re.group "See also #42 and duplicate of #7" mt 1)
      (Re.finditer (fst (nth 5 _REF_PATTERNS (Re.Eps, issue_ref)))
                   "See also #42 and duplicate of #7") = [Some "7"]
  /\ map (fun mt => Re.group "See also #42 and duplicate of #7" mt 1)
         (Re.finditer (fst (nth 7 _REF_PATTERNS (Re.Eps, issue_ref)))
                      "See also #42 and duplicate of #7") = [Some "42"].
Proof. split; vm_compute; reflexivity. Qed.

(** Without the [issue_ref] pattern the two refs of the specification's
    example are produced. *)
Lemma later_patterns_alone :
  refs (run_patterns "See also #42 and duplicate of #7" "a/b" (skipn 1 _REF_PATTERNS) (Acc [] ∅))
  = [ Ref "duplicate" "https://github.com/a/b/issues/7" "See also #42 and duplicate of #7";
      Ref "related" "https://github.com/a/b/issues/42" "See also #42 and duplicate of #7" ].
Proof. vm_compute. reflexivity. Qed.

(** C1. When the GitHub API answers the issue request with status 200 and
    a body that is not JSON, [fetch_github_issue] raises: [issue] is [None]
    and [issue.get] is called outside the [try].  No document is returned. *)
Theorem fetch_github_issue_raises_on_non_json :
  fetch_github_issue Inputs.http_not_json Inputs.no_repr "o" "r" 1 None 100
  = Py.Raise (Py.Exn Py.AttributeError "'NoneType' object has no attribute 'get'").
Proof. vm_compute. reflexivity. Qed.

(** The same for every answer below 400 whose JSON is [None], whatever the
    other requests return. *)
Lemma fetch_github_issue_raises_on_null http repr owner repo number token max_comments st tx :
  http (api_base owner repo +:+ "/issues/" +:+ Py.str_of_Z number) (_gh_headers token) []
  = Py.Ok (Response st tx Py.JNull) ->
  (st < 400)%Z ->
  Props.is_ok (fetch_github_issue http repr owner repo number token max_comments) = false.
Proof.
  intros H Hst. unfold fetch_github_issue. cbv zeta. rewrite H. cbn [status json_].
  destruct (Z.leb_spec 400 st); [lia|]. reflexivity.
Qed.

(** A failed or refused request does give a document with [error] set. *)
Lemma fetch_github_issue_error_document http repr owner repo number token max_comments :
  (forall r, http (api_base owner repo +:+ "/issues/" +:+ Py.str_of_Z number)
                  (_gh_headers token) [] = Py.Ok r -> (400 <= status r)%Z) ->
  exists d, fetch_github_issue http repr owner repo number token max_comments = Py.Ok d
            /\ d_error d <> None /\ d_comments d = [] /\ d_refs d = [].
Proof.
  intros H. unfold fetch_github_issue. cbv zeta.
  destruct (http _ _ _) as [r|e] eqn:E.
  - specialize (H r eq_refl). destruct (Z.leb_spec 400 (status r)); [|lia].
    eexists; split; [reflexivity|]. simpl. repeat split; congruence.
  - eexists; split; [reflexivity|]. simpl. repeat split; congruence.
Qed.

End FetchThreadFacts.

(** ** The order of floats *)
Module PyFacts.
Import Py.
Import Py.


Lemma flt_fge a b : flt b a = true -> fge a b = true.
Proof. unfold fge. intros ->. reflexivity. Qed.

Lemma fge_notnan_l a b : fge a b = true -> notnan a = true.
Proof. destruct a, b; simpl; try reflexivity; discriminate. Qed.

Lemma fge_notnan_r a b : fge a b = true -> notnan b = true.
Proof. destruct a, b; simpl; try reflexivity; discriminate. Qed.

Lemma fge_total a b : notnan a = true -> notnan b = true -> flt a b = false -> fge a b = true.
Proof.
  destruct a as [| |x|], b as [| |y|]; simpl; try reflexivity; try discriminate.
  unfold fge; simpl. intros _ _ H. apply negb_false_iff in H. 
  destruct (Qle_bool x y) eqn:E; simpl; [|reflexivity].
  apply Qle_bool_iff in H, E. apply Qeq_bool_iff. apply Qle_antisym; assumption.
Qed.

Lemma fge_spec_fin x y : fge (FFin x) (FFin y) = true <-> (y <= x)%Q.
Proof.
  unfold fge; simpl. rewrite orb_true_iff, negb_true_iff. split.
  - intros [H|H].
    + destruct (Qlt_le_dec y x) as [L|L]; [apply Qlt_le_weak, L|].
      apply Qle_bool_iff in L. congruence.
    + apply Qeq_bool_iff in H. rewrite H. apply Qle_refl.
  - intros H. destruct (Qle_bool x y) eqn:E; [right|left; reflexivity].
    apply Qle_bool_iff in E. apply Qeq_bool_iff. apply Qle_antisym; assumption.
Qed.

Lemma fge_trans a b c : fge a b = true -> fge b c = true -> fge a c = true.
Proof.
  destruct a as [| |x|], b as [| |y|], c as [| |z|]; try (simpl; reflexivity || discriminate);
    try (unfold fge; simpl; reflexivity || discriminate).
  rewrite !fge_spec_fin. intros H1 H2. eapply Qle_trans; eassumption.
Qed.

Lemma flt_not_fge a b : flt a b = true -> fge a b = false.
Proof.
  destruct a as [| |x|], b as [| |y|]; try (simpl; reflexivity || discriminate);
    try (unfold fge; simpl; reflexivity || discriminate).
  intros H. destruct (fge (FFin x) (FFin y)) eqn:E; [|reflexivity].
  apply fge_spec_fin in E. simpl in H. apply negb_true_iff in H.
  apply Qle_bool_iff in E. congruence.
Qed.

Lemma feq_fge a b : feq a b = true -> fge a b = true.
Proof. unfold fge. intros ->. apply orb_true_r. Qed.

Lemma feq_sym a b : feq a b = feq b a.
Proof.
  destruct a as [| |x|], b as [| |y|]; simpl; try reflexivity.
  destruct (Qeq_bool x y) eqn:E, (Qeq_bool y x) eqn:F; try reflexivity.
  - apply Qeq_bool_iff in E. symmetry in E. apply Qeq_bool_iff in E. congruence.
  - apply Qeq_bool_iff in F. symmetry in F. apply Qeq_bool_iff in F. congruence.
Qed.

Lemma feq_trans a b c : feq a b = true -> feq b c = true -> feq a c = true.
Proof.
  destruct a as [| |x|], b as [| |y|], c as [| |z|]; simpl; try reflexivity; try discriminate.
  rewrite !Qeq_bool_iff. intros H1 H2. rewrite H1. exact H2.
Qed.

(** Two floats equal to the same value are not in the relation [<]. *)
Lemma flt_not_tie a b v : flt a b = true -> feq a v = true -> feq b v = true -> False.
Proof.
  intros L E1 E2. rewrite feq_sym in E1.
  pose proof (feq_trans _ _ _ E2 E1) as E.
  apply flt_not_fge in L. rewrite feq_sym in E. apply feq_fge in E. congruence.
Qed.

End PyFacts.

(** ** The relevance gate *)
Module RelevanceGateFacts.
Import RelevanceGate Props PyFacts.

(** *** The stable descending sort *)
Lemma insert_desc_perm x l : Permutation (insert_desc x l) (x :: l).
Proof.
  induction l as [|y l IH]; simpl; [reflexivity|].
  destruct (Py.flt (s_score y) (s_score x)); [reflexivity|].
  rewrite IH. apply perm_swap.
Qed.

Lemma fold_insert_perm l acc :
  Permutation (fold_left (fun acc x => insert_desc x acc) l acc) (acc ++ l).
Proof.
  revert acc. induction l as [|x l IH]; intros acc; simpl.
  - rewrite app_nil_r. reflexivity.
  - rewrite IH, insert_desc_perm. apply Permutation_middle.
Qed.

Lemma sort_desc_perm l : Permutation (sort_desc l) l.
Proof. unfold sort_desc. apply (fold_insert_perm l []). Qed.


Lemma insert_desc_descending x l :
  Py.notnan (s_score x) = true -> scores_ordered l ->
  descending l -> descending (insert_desc x l).
Proof.
  intros Hx Hl Hs. induction l as [|y l IH]; simpl.
  - repeat constructor.
  - inversion Hs as [|? ? Hs' Hy]; subst. inversion Hl as [|? ? Ny Nl]; subst.
    destruct (Py.flt (s_score y) (s_score x)) eqn:E.
    + constructor; [exact Hs|]. constructor.
      * apply flt_fge; exact E.
      * eapply Forall_impl; [exact Hy|]. simpl. intros z Hz.
        eapply fge_trans; [apply flt_fge; exact E|exact Hz].
    + constructor; [apply IH; assumption|].
      rewrite (insert_desc_perm x l). constructor; [|exact Hy].
      apply fge_total; assumption.
Qed.

Lemma fold_insert_descending l acc :
  scores_ordered l -> scores_ordered acc -> descending acc ->
  descending (fold_left (fun acc x => insert_desc x acc) l acc).
Proof.
  revert acc. induction l as [|x l IH]; intros acc Hl Ha Hs; simpl; [exact Hs|].
  inversion Hl; subst. apply IH; [assumption| |].
  - unfold scores_ordered. rewrite (insert_desc_perm x acc). constructor; assumption.
  - apply insert_desc_descending; assumption.
Qed.

Lemma sort_desc_descending l : scores_ordered l -> descending (sort_desc l).
Proof. intros H. apply fold_insert_descending; [exact H|constructor|constructor]. Qed.

Lemma ties_app v l1 l2 : ties v (l1 ++ l2) = ties v l1 ++ ties v l2.
Proof. unfold ties. apply filter_app. Qed.

Lemma ties_cons v x l :
  ties v (x :: l) = if decide (Py.feq (s_score x) v = true) then x :: ties v l else ties v l.
Proof. exact (filter_cons (fun s => Py.feq (s_score s) v = true) x l). Qed.

Lemma ties_none v l : Forall (fun s => Py.feq (s_score s) v <> true) l -> ties v l = [].
Proof.
  induction 1 as [|x l Hx _ IH]; [reflexivity|].
  rewrite ties_cons. destruct (decide _); [contradiction|exact IH].
Qed.

(** In a descending list, no item behind an item smaller than [x] ties
    with [x]. *)
Lemma insert_desc_ties v x l :
  descending l -> ties v (insert_desc x l) = ties v l ++ ties v [x].
Proof.
  intros Hs. induction l as [|y l IH]; simpl; [reflexivity|].
  inversion Hs as [|? ? Hs' Hy]; subst.
  destruct (Py.flt (s_score y) (s_score x)) eqn:E.
  - rewrite (ties_cons v x (y :: l)), (ties_cons v x []).
    destruct (decide (Py.feq (s_score x) v = true)) as [Ex|Ex];
      [|rewrite app_nil_r; reflexivity].
    assert (N : ties v (y :: l) = []).
    { apply ties_none. constructor.
      - intros Ey. exact (flt_not_tie _ _ _ E Ey Ex).
      - rewrite Forall_forall in Hy. apply Forall_forall. intros z Hz Ez.
        specialize (Hy z Hz). simpl in Hy.
        assert (Hzx : Py.feq (s_score z) (s_score x) = true).
        { rewrite (feq_sym (s_score x) v) in Ex. eapply feq_trans; eassumption. }
        apply flt_not_fge in E.
        rewrite (fge_trans _ _ _ Hy (feq_fge _ _ Hzx)) in E. discriminate. }
    rewrite N. reflexivity.
  - rewrite (ties_cons v y (insert_desc x l)), (ties_cons v y l), (IH Hs').
    destruct (decide _); reflexivity.
Qed.

Lemma fold_insert_ties v l acc :
  scores_ordered l -> scores_ordered acc -> descending acc ->
  ties v (fold_left (fun acc x => insert_desc x acc) l acc) = ties v acc ++ ties v l.
Proof.
  revert acc. induction l as [|x l IH]; intros acc Hl Ha Hs; simpl.
  - rewrite app_nil_r. reflexivity.
  - inversion Hl; subst. rewrite IH.
    + rewrite insert_desc_ties by exact Hs. rewrite <- app_assoc, <- ties_app. reflexivity.
    + assumption.
    + unfold scores_ordered. rewrite (insert_desc_perm x acc). constructor; assumption.
    + apply insert_desc_descending; assumption.
Qed.

Lemma sort_desc_ties v l : scores_ordered l -> ties v (sort_desc l) = ties v l.
Proof. intros H. apply (fold_insert_ties v l []); [exact H|constructor|constructor]. Qed.

(** *** Framing *)
Lemma base_with_score c f r : base (with_score c f r) = c.
Proof. destruct c; reflexivity. Qed.

Lemma bind_ok {A B} (x : Py.res A) (f : A -> Py.res B) b :
  x ≫= f = Py.Ok b -> exists a, x = Py.Ok a /\ f a = Py.Ok b.
Proof. destruct x; simpl; [eauto|discriminate]. Qed.

Lemma map_snd_enumerate {A} (l : list A) i : map snd (enumerate_from i l) = l.
Proof. revert i. induction l as [|x l IH]; intros i; simpl; [|rewrite IH]; reflexivity. Qed.



Lemma framed_map cands f r :
  framed cands (map (fun c => with_score c f r) cands).
Proof.
  exists (seq 0 (length cands)). split; [apply NoDup_ListNoDup, seq_NoDup|].
  rewrite map_map.
  assert (G : forall pre, map (fun i => (pre ++ cands) !! i) (seq (length pre) (length cands))
                          = map (fun c => Some (base (with_score c f r))) cands).
  { induction cands as [|c cands IH]; intros pre; simpl; [reflexivity|].
    f_equal.
    - rewrite base_with_score. apply list_lookup_middle. reflexivity.
    - specialize (IH (pre ++ [c])). rewrite length_app, <- app_assoc in IH. simpl in IH.
      rewrite Nat.add_1_r in IH. exact IH. }
  exact (G []).
Qed.

Lemma sublist_framed cands out :
  sublist (map base out) cands -> framed cands out.
Proof.
  remember (map base out) as bs eqn:E. intros H. revert out E.
  induction H as [|c l1 l2 H IH|c l1 l2 H IH]; intros out E.
  - destruct out; [|discriminate]. exists []. split; [constructor|reflexivity].
  - destruct out as [|s out]; [discriminate|]. simpl in E. injection E as -> ->.
    destruct (IH out eq_refl) as (idxs & ND & M).
    exists (0%nat :: map S idxs). split.
    + constructor.
      * rewrite list_elem_of_In, in_map_iff. intros (j & ? & _). discriminate.
      * apply NoDup_fmap_2; [intros ? ? ?; lia|exact ND].
    + simpl. f_equal. rewrite map_map. exact M.
  - destruct (IH out E) as (idxs & ND & M).
    exists (map S idxs). split.
    + apply NoDup_fmap_2; [intros ? ? ?; lia|exact ND].
    + rewrite map_map. exact M.
Qed.

Lemma framed_perm cands out out' :
  Permutation out out' -> framed cands out -> framed cands out'.
Proof.
  intros P (idxs & ND & M).
  assert (P' : Permutation (map (fun s => Some (base s)) out') (map (fun i => cands !! i) idxs)).
  { rewrite M. apply Permutation_map. symmetry. exact P. }
  destruct (Permutation_map_inv _ _ P') as (idxs' & E & Pi).
  exists idxs'. split; [|symmetry; exact E].
  rewrite <- Pi. exact ND.
Qed.

Lemma rev_omap {A B} (f : A -> option B) l : rev (omap f l) = omap f (rev l).
Proof.
  induction l as [|x l IH]; simpl; [reflexivity|].
  rewrite omap_app. simpl. destruct (f x); simpl; rewrite ?app_nil_r; [f_equal|]; exact IH.
Qed.

Section Gate.

Context (post : string -> string -> string -> string -> Py.res Py.json)
        (stored : creds)
        (json_loads : string -> option Py.json)
        (float_of_str : string -> option Py.pyfloat)
        (float_of_big : Z -> option Py.pyfloat).

Lemma merge_step_sub sm thr result ic out :
  merge_step float_of_str float_of_big sm thr result ic = Py.Ok out ->
  exists new, out = result ++ new /\ sublist (map base new) [snd ic].
Proof.
  unfold merge_step. intros H.
  apply bind_ok in H as (sv & _ & H). apply bind_ok in H as (score & _ & H).
  destruct (Py.fge score thr).
  - apply bind_ok in H as (reason & _ & H). injection H as <-.
    exists [with_score (snd ic) score reason]. split; [reflexivity|].
    simpl. rewrite base_with_score. reflexivity.
  - injection H as <-. exists []. split; [symmetry; apply app_nil_r|]. apply sublist_nil_l.
Qed.

Lemma merge_fold_sub sm thr ics acc out :
  Py.foldM (merge_step float_of_str float_of_big sm thr) ics acc = Py.Ok out ->
  exists new, out = acc ++ new /\ sublist (map base new) (map snd ics).
Proof.
  revert acc. induction ics as [|ic ics IH]; intros acc H; simpl in H.
  - injection H as <-. exists []. split; [symmetry; apply app_nil_r|constructor].
  - unfold Py.bind in H.
    destruct (merge_step _ _ _ _ _ _) as [acc'|] eqn:E; [|discriminate].
    apply merge_step_sub in E as (n1 & -> & S1).
    apply IH in H as (n2 & -> & S2).
    exists (n1 ++ n2). split; [rewrite app_assoc; reflexivity|].
    rewrite map_app. change (map snd (ic :: ics)) with ([snd ic] ++ map snd ics).
    apply sublist_app; assumption.
Qed.

Lemma merge_scores_framed sm thr cands out :
  merge_scores float_of_str float_of_big sm thr cands = Py.Ok out -> framed cands out.
Proof.
  intros H. apply merge_fold_sub in H as (new & -> & S).
  rewrite map_snd_enumerate in S. apply sublist_framed. exact S.
Qed.

(** *** The merge of a well-formed answer *)

Lemma bind_item_ok acc item :
  entry_ok float_of_str float_of_big item = true ->
  bind_item acc item = Py.Ok (acc ++ id_bindings [item]).
Proof.
  destruct item; try discriminate. simpl. unfold bind_item. simpl.
  destruct (Py.lookup "id" items) as [k|] eqn:E; simpl.
  - intros H. apply andb_true_iff in H as [H _].
    destruct (hashable k); [|discriminate]. reflexivity.
  - intros _. rewrite app_nil_r. reflexivity.
Qed.

Lemma id_bindings_cons it items :
  id_bindings (it :: items) = id_bindings [it] ++ id_bindings items.
Proof. exact (omap_app _ [it] items). Qed.

Lemma bind_items_ok items acc :
  Forall (fun it => entry_ok float_of_str float_of_big it = true) items ->
  Py.foldM bind_item items acc = Py.Ok (acc ++ id_bindings items).
Proof.
  intros H. revert acc. induction H as [|it items Hit _ IH]; intros acc; cbn [Py.foldM].
  - unfold id_bindings. simpl. rewrite app_nil_r. reflexivity.
  - rewrite id_bindings_cons, (bind_item_ok acc it Hit). cbn [Py.bind].
    rewrite IH, app_assoc. reflexivity.
Qed.

Lemma score_map_of_array items :
  Forall (fun it => entry_ok float_of_str float_of_big it = true) items ->
  score_map_of (Py.JArr items) = Py.Ok (id_bindings items).
Proof. intros H. unfold score_map_of. simpl. apply (bind_items_ok items [] H). Qed.

Lemma score_map_get_bindings items i :
  score_map_get (id_bindings items) i
  = match entry_for items i with Some it => it | None => Py.JObj [] end.
Proof.
  unfold score_map_get, entry_for, id_bindings. rewrite rev_omap.
  induction (rev items) as [|it l IH]; simpl; [reflexivity|].
  destruct it; simpl; try exact IH.
  destruct (Py.lookup "id" items0) as [k|]; simpl; [|exact IH].
  destruct (key_is i k); [reflexivity|exact IH].
Qed.

Lemma entry_for_in items i it : entry_for items i = Some it -> it ∈ items.
Proof.
  unfold entry_for. intros H. apply find_some in H as [H _].
  apply list_elem_of_In, in_rev. exact H.
Qed.

Lemma entry_for_obj items i it :
  entry_for items i = Some it -> exists kvs, it = Py.JObj kvs.
Proof.
  unfold entry_for. intros H. apply find_some in H as [_ H].
  destruct it; try discriminate. eauto.
Qed.

Lemma merge_step_ok items thr result ic :
  Forall (fun it => entry_ok float_of_str float_of_big it = true) items ->
  merge_step float_of_str float_of_big (id_bindings items) thr result ic
  = Py.Ok (result ++ filter (fun s => Py.fge (s_score s) thr = true)
                            [with_score (snd ic) (score_for float_of_str float_of_big items (fst ic))
                                        (reason_for items (fst ic))]).
Proof.
  intros Hok. unfold merge_step, score_for, reason_for. rewrite score_map_get_bindings.
  destruct (entry_for items (fst ic)) as [it|] eqn:E.
  - destruct (entry_for_obj _ _ _ E) as (kvs & ->).
    apply entry_for_in in E. rewrite Forall_forall in Hok. specialize (Hok _ E).
    simpl in Hok. apply andb_true_iff in Hok as [_ Hs].
    cbn [Py.get mbind Py.res_bind Py.bind]. unfold Py.dict_get.
    destruct (Py.lookup "score" kvs) as [v|] eqn:Ev.
    + destruct (to_float float_of_str float_of_big v) as [f|] eqn:Ef; [|discriminate].
      cbn [mbind Py.res_bind Py.bind]. rewrite filter_cons, filter_nil.
      destruct (Py.fge f thr) eqn:G.
      * rewrite decide_True by exact G. reflexivity.
      * rewrite decide_False by (simpl; congruence). rewrite app_nil_r. reflexivity.
    + cbn [to_float mbind Py.res_bind Py.bind]. rewrite filter_cons, filter_nil.
      destruct (Py.fge Py.f_half thr) eqn:G.
      * rewrite decide_True by exact G. reflexivity.
      * rewrite decide_False by (simpl; congruence). rewrite app_nil_r. reflexivity.
  - cbn [Py.get mbind Py.res_bind Py.bind Py.dict_get Py.lookup find to_float].
    rewrite filter_cons, filter_nil.
    destruct (Py.fge Py.f_half thr) eqn:G.
    + rewrite decide_True by exact G. reflexivity.
    + rewrite decide_False by (simpl; congruence). rewrite app_nil_r. reflexivity.
Qed.

Lemma merge_fold_ok items thr ics acc :
  Forall (fun it => entry_ok float_of_str float_of_big it = true) items ->
  Py.foldM (merge_step float_of_str float_of_big (id_bindings items) thr) ics acc
  = Py.Ok (acc ++ filter (fun s => Py.fge (s_score s) thr = true)
                         (map (fun ic => with_score (snd ic)
                                           (score_for float_of_str float_of_big items (fst ic))
                                           (reason_for items (fst ic))) ics)).
Proof.
  intros Hok. revert acc. induction ics as [|ic ics IH]; intros acc; cbn [Py.foldM map].
  - rewrite filter_nil, app_nil_r. reflexivity.
  - rewrite (merge_step_ok items thr acc ic Hok). cbn [Py.bind]. rewrite IH.
    rewrite <- app_assoc, <- filter_app. reflexivity.
Qed.

Lemma merge_scores_ok items thr cands :
  Forall (fun it => entry_ok float_of_str float_of_big it = true) items ->
  merge_scores float_of_str float_of_big (id_bindings items) thr cands
  = Py.Ok (filter (fun s => Py.fge (s_score s) thr = true)
                  (assigned float_of_str float_of_big items cands)).
Proof. intros Hok. unfold merge_scores. rewrite (merge_fold_ok items thr _ [] Hok). reflexivity. Qed.

(** *** The three ways out of [score_candidates] *)

Lemma score_candidates_empty query ks thr c :
  score_candidates post stored json_loads float_of_str float_of_big query [] ks thr c
  = ([], Py.Ok []).
Proof. reflexivity. Qed.

Lemma score_candidates_unavailable query cands ks thr c e :
  cands <> [] ->
  snd (_call_llm post (_build_prompt query ks cands) (resolve_creds stored c)) = Py.Raise e ->
  snd (score_candidates post stored json_loads float_of_str float_of_big query cands ks thr c)
  = Py.Ok (map (fun c => with_score c Py.f_half (Py.JStr "LLM unavailable")) cands).
Proof.
  intros Hne H. destruct cands as [|c0 cands]; [done|].
  unfold score_candidates. cbv zeta.
  destruct (_call_llm _ _ _) as [calls r]. simpl in H. subst r. reflexivity.
Qed.

Lemma score_candidates_text query cands ks thr c raw :
  cands <> [] ->
  snd (_call_llm post (_build_prompt query ks cands) (resolve_creds stored c))
  = Py.Ok (Py.JStr raw) ->
  snd (score_candidates post stored json_loads float_of_str float_of_big query cands ks thr c)
  = parse_and_merge json_loads float_of_str float_of_big raw thr cands.
Proof.
  intros Hne H. destruct cands as [|c0 cands]; [done|].
  unfold score_candidates. cbv zeta.
  destruct (_call_llm _ _ _) as [calls r]. simpl in H. subst r. reflexivity.
Qed.

(** When [json.loads] raises [JSONDecodeError], every candidate comes back
    with the score 0.5 and the reason "parse error". *)
Lemma score_candidates_parse_error query cands ks thr c raw :
  cands <> [] ->
  snd (_call_llm post (_build_prompt query ks cands) (resolve_creds stored c))
  = Py.Ok (Py.JStr raw) ->
  json_loads (strip_fences raw) = None ->
  snd (score_candidates post stored json_loads float_of_str float_of_big query cands ks thr c)
  = Py.Ok (map (fun c => with_score c Py.f_half (Py.JStr "parse error")) cands).
Proof.
  intros Hne H Hp. rewrite (score_candidates_text _ _ _ _ _ raw) by done.
  unfold parse_and_merge. rewrite Hp. reflexivity.
Qed.

End Gate.

(** C8. When the call to the scoring service raises, [score_candidates]
    returns every candidate, in order, with the score 0.5 and the reason
    "LLM unavailable", so the output is as long as the input; for an empty
    candidate list it returns the empty list and sends nothing to the
    service. *)
Theorem score_candidates_llm_unavailable
    (post : string -> string -> string -> string -> Py.res Py.json) (stored : creds)
    (json_loads : string -> option Py.json)
    (float_of_str : string -> option Py.pyfloat) (float_of_big : Z -> option Py.pyfloat)
    (query ks : string) (thr : Py.pyfloat) (c : option creds) :
  (forall cands e,
      cands <> [] ->
      snd (_call_llm post (_build_prompt query ks cands) (resolve_creds stored c)) = Py.Raise e ->
      exists out,
        snd (score_candidates post stored json_loads float_of_str float_of_big
                              query cands ks thr c) = Py.Ok out
        /\ length out = length cands
        /\ map base out = cands
        /\ Forall (fun s => s_score s = Py.f_half /\ s_reason s = Py.JStr "LLM unavailable") out)
  /\ score_candidates post stored json_loads float_of_str float_of_big query [] ks thr c
     = ([], Py.Ok []).
Proof.
  split; [|reflexivity].
  intros cands e Hne H. eexists. split; [|split; [|split]].
  - eapply score_candidates_unavailable; eassumption.
  - apply length_map.
  - rewrite map_map. erewrite map_ext; [apply map_id|]. intros a. apply base_with_score.
  - apply Forall_forall. intros s Hs. apply list_elem_of_In, in_map_iff in Hs as (a & <- & _).
    split; reflexivity.
Qed.

Lemma score_candidates_llm_unavailable_witness :
  [Inputs.cand1; Inputs.cand2] <> []
  /\ snd (_call_llm Inputs.post_down (_build_prompt "q" "" [Inputs.cand1; Inputs.cand2])
                    (resolve_creds Inputs.creds1 None))
     = Py.Raise (Py.Exn Py.OSError "connection refused")
  /\ exists out,
       snd (score_candidates Inputs.post_down Inputs.creds1 Inputs.loads1
                             Inputs.no_float_of_str Inputs.no_float_of_big
                             "q" [Inputs.cand1; Inputs.cand2] "" Py.f_half None) = Py.Ok out
       /\ length out = 2%nat
       /\ map base out = [Inputs.cand1; Inputs.cand2]
       /\ Forall (fun s => s_score s = Py.f_half /\ s_reason s = Py.JStr "LLM unavailable") out.
Proof.
  split; [discriminate|]. split; [reflexivity|].
  apply (proj1 (score_candidates_llm_unavailable Inputs.post_down Inputs.creds1 Inputs.loads1
                  Inputs.no_float_of_str Inputs.no_float_of_big "q" "" Py.f_half None)
               [Inputs.cand1; Inputs.cand2] (Py.Exn Py.OSError "connection refused")).
  - discriminate.
  - reflexivity.
Defined.

(** C2. When the service answers with the JSON text null, [json.loads]
    succeeds and returns [None]; the loop over [scores] then raises
    [TypeError], which [score_candidates] does not catch: no candidate list
    is returned. *)
Theorem score_candidates_raises_on_null_answer :
  snd (score_candidates Inputs.post_null Inputs.creds1 Inputs.loads1
                        Inputs.no_float_of_str Inputs.no_float_of_big
                        "q" [Inputs.cand1; Inputs.cand2] "" Py.f_half (Some Inputs.creds1))
  = Py.Raise (Py.Exn Py.TypeError "'NoneType' object is not iterable").
Proof. vm_compute. reflexivity. Qed.

(** On the same candidates an answer that is not JSON is handled. *)
Lemma score_candidates_parse_error_example :
  snd (score_candidates Inputs.post_prose Inputs.creds1 Inputs.loads1
                        Inputs.no_float_of_str Inputs.no_float_of_big
                        "q" [Inputs.cand1; Inputs.cand2] "" Py.f_half (Some Inputs.creds1))
  = Py.Ok [with_score Inputs.cand1 Py.f_half (Py.JStr "parse error");
           with_score Inputs.cand2 Py.f_half (Py.JStr "parse error")].
Proof. vm_compute. reflexivity. Qed.

(** C10. Whatever the service answers, the items [score_candidates] returns
    come from pairwise distinct positions of the candidate list and carry
    the url, anchor and context found there; this covers the empty list,
    the two fail-open branches and the merge. *)
Theorem score_candidates_frame
    (post : string -> string -> string -> string -> Py.res Py.json) (stored : creds)
    (json_loads : string -> option Py.json)
    (float_of_str : string -> option Py.pyfloat) (float_of_big : Z -> option Py.pyfloat)
    (query : string) (cands : list candidate) (ks : string) (thr : Py.pyfloat)
    (c : option creds) :
  match snd (score_candidates post stored json_loads float_of_str float_of_big
                              query cands ks thr c) with
  | Py.Ok out => framed cands out
  | Py.Raise _ => True
  end.
Proof.
  destruct cands as [|c0 cands].
  - simpl. exists []. split; [constructor|reflexivity].
  - unfold score_candidates. cbv zeta.
    destruct (_call_llm _ _ _) as [calls [v|e]]; cbn [snd]; [|apply framed_map].
    destruct v; try exact I.
    unfold parse_and_merge. destruct (json_loads _) as [scores|]; [|apply framed_map].
    destruct (score_map_of scores) as [sm|]; [|exact I]. cbn [mbind Py.res_bind Py.bind].
    destruct (merge_scores _ _ sm thr (c0 :: cands)) as [out|] eqn:E; [|exact I].
    cbn [Py.bind]. eapply framed_perm; [symmetry; apply sort_desc_perm|].
    eapply merge_scores_framed; exact E.
Qed.

(** C9. When the answer decodes to an array of [{"id", "score", "reason"}]
    objects, [score_candidates] returns the stable descending sort of the
    candidates whose score for their 1-based position (0.5 without an
    entry) is at least the threshold: the output is a permutation of those
    candidates, it is descending by score, and the items of equal score
    keep the order of the candidate list. *)
Theorem score_candidates_merges_by_position
    (post : string -> string -> string -> string -> Py.res Py.json) (stored : creds)
    (json_loads : string -> option Py.json)
    (float_of_str : string -> option Py.pyfloat) (float_of_big : Z -> option Py.pyfloat)
    (query : string) (cands : list candidate) (ks : string) (thr : Py.pyfloat)
    (c : option creds) (raw : string) (items : list Py.json) :
  cands <> [] ->
  snd (_call_llm post (_build_prompt query ks cands) (resolve_creds stored c))
  = Py.Ok (Py.JStr raw) ->
  json_loads (strip_fences raw) = Some (Py.JArr items) ->
  Forall (fun it => entry_ok float_of_str float_of_big it = true) items ->
  let kept := filter (fun s => Py.fge (s_score s) thr = true)
                     (assigned float_of_str float_of_big items cands) in
  exists out,
    snd (score_candidates post stored json_loads float_of_str float_of_big
                          query cands ks thr c) = Py.Ok out
    /\ out = sort_desc kept
    /\ Permutation out kept
    /\ descending out
    /\ forall v, ties v out = ties v kept.
Proof.
  intros Hne Hraw Hjson Hok kept.
  assert (Hord : scores_ordered kept).
  { apply Forall_forall. intros s Hs. apply list_elem_of_filter in Hs as [Hs _].
    eapply fge_notnan_l; exact Hs. }
  exists (sort_desc kept). split; [|split; [reflexivity|split; [|split]]].
  - rewrite (score_candidates_text _ _ _ _ _ _ _ _ _ _ raw) by assumption.
    unfold parse_and_merge. rewrite Hjson, (score_map_of_array _ _ _ Hok).
    cbn [mbind Py.res_bind Py.bind]. rewrite (merge_scores_ok _ _ _ _ _ Hok). reflexivity.
  - apply sort_desc_perm.
  - apply sort_desc_descending; exact Hord.
  - intros v. apply sort_desc_ties; exact Hord.
Qed.

Lemma score_candidates_merges_by_position_witness :
  let cands := [Inputs.cand1; Inputs.cand2; Inputs.cand3] in
  let items := [
    Py.JObj [("id", Py.JInt 1); ("score", Py.JFloat (Py.FFin (1 # 4))); ("reason", Py.JStr "noise")];
    Py.JObj [("id", Py.JInt 2); ("score", Py.JFloat (Py.FFin (3 # 4))); ("reason", Py.JStr "relevant")];
    Py.JObj [("id", Py.JInt 3); ("score", Py.JFloat (Py.FFin (3 # 4)));
             ("reason", Py.JStr "also relevant")]] in
  let kept := [with_score Inputs.cand2 (Py.FFin (3 # 4)) (Py.JStr "relevant");
               with_score Inputs.cand3 (Py.FFin (3 # 4)) (Py.JStr "also relevant")] in
  exists out,
    snd (score_candidates Inputs.post_scores Inputs.creds1 Inputs.loads1
                          Inputs.no_float_of_str Inputs.no_float_of_big
                          "q" cands "" Py.f_half None) = Py.Ok out
    /\ out = kept
    /\ Permutation out kept
    /\ descending out
    /\ forall v, ties v out = ties v kept.
Proof.
  intros cands items kept.
  destruct (score_candidates_merges_by_position Inputs.post_scores Inputs.creds1 Inputs.loads1
              Inputs.no_float_of_str Inputs.no_float_of_big "q" cands "" Py.f_half None
              Inputs.scores_text items) as (out & H1 & H2 & H3 & H4 & H5).
  - discriminate.
  - reflexivity.
  - reflexivity.
  - repeat constructor.
  - exists out. split; [exact H1|]. split; [rewrite H2; vm_compute; reflexivity|].
    split; [exact H3|]. split; [exact H4|exact H5].
Defined.

End RelevanceGateFacts.

(** ** The crawl orchestrator *)
Module ChainTrackerFacts.
Import RelevanceGate ChainTracker Props.

(** *** The candidate list *)
Lemma nonempty_true s : Py.nonempty s = true <-> s <> "".
Proof. destruct s; simpl; split; congruence. Qed.

Lemma add_candidates_spec cs a :
  seen_inv a ->
  exists new,
    fst (fold_left (fun a c => add_candidate c a) cs a) = fst a ++ new
    /\ seen_inv (fold_left (fun a c => add_candidate c a) cs a)
    /\ sublist new cs
    /\ forall c, c ∈ cs -> url c <> "" -> url c ∈ map url (fst a ++ new).
Proof.
  revert a. induction cs as [|c cs IH]; intros a Ha.
  - exists []. cbn. rewrite app_nil_r. repeat split; try apply Ha; try constructor.
    intros c Hc. inversion Hc.
  - cbn [fold_left]. unfold add_candidate at 2 4.
    destruct (Py.nonempty (url c) && negb (bool_decide (url c ∈ a.2))) eqn:E.
    + apply andb_true_iff in E as [E1 E2]. apply negb_true_iff, bool_decide_eq_false in E2.
      destruct Ha as [Hm Hnd].
      destruct (IH (a.1 ++ [c], {[url c]} ∪ a.2)) as (new & H1 & H2 & H3 & H4).
      { split; cbn [fst snd].
        - intros u. rewrite map_app, elem_of_union, elem_of_app, elem_of_singleton, Hm. cbn.
          rewrite list_elem_of_singleton. tauto.
        - rewrite map_app. apply NoDup_app. split; [exact Hnd|]. split; [|apply NoDup_singleton].
          intros u Hu Hu'. apply list_elem_of_singleton in Hu'. subst u. apply Hm in Hu. done. }
      exists (c :: new). cbn [fst snd] in H1, H4. split; [|split; [exact H2|split]].
      * rewrite H1, <- app_assoc. reflexivity.
      * apply sublist_skip, H3.
      * intros c' Hc' Hne. rewrite (app_assoc _ [c] new : a.1 ++ c :: new = (a.1 ++ [c]) ++ new).
        apply elem_of_cons in Hc' as [->|Hc']; [|apply H4; assumption].
        rewrite !map_app. apply elem_of_app. left. apply elem_of_app. right. left.
    + destruct (IH a Ha) as (new & H1 & H2 & H3 & H4).
      exists new. split; [exact H1|split; [exact H2|split]].
      * apply sublist_cons, H3.
      * intros c' Hc' Hne. apply elem_of_cons in Hc' as [->|Hc']; [|apply H4; assumption].
        apply andb_false_iff in E as [E|E].
        -- apply nonempty_true in Hne. congruence.
        -- apply negb_false_iff, bool_decide_eq_true in E. apply Ha in E.
           rewrite map_app. apply elem_of_app. left. exact E.
Qed.

Lemma fold_left_fmap {A B C} (f : C -> B -> C) (g : A -> B) l c :
  fold_left (fun c x => f c (g x)) l c = fold_left f (map g l) c.
Proof. revert c. induction l as [|x l IH]; intros c; simpl; [reflexivity|apply IH]. Qed.

(** C3, as amended.  The list of [_get_candidates] is made of entries of
    the document's links followed by entries of its refs, each part in the
    order of discovery; no URL occurs twice in it; every non-empty URL of
    the links and refs is represented in it by an entry with the same
    canonical URL; and [track] hands its first 20 entries to the relevance gate. *)
Theorem gate_candidates_links_then_refs (data : page) :
  exists from_links from_refs,
    _get_candidates data = from_links ++ from_refs
    /\ gate_candidates data = firstn 20 (from_links ++ from_refs)
    /\ sublist from_links (map of_link (p_links data))
    /\ sublist from_refs (map of_ref (p_refs data))
    /\ NoDup (map url (from_links ++ from_refs))
    /\ (forall c, c ∈ map of_link (p_links data) ++ map of_ref (p_refs data) ->
                  url c <> "" ->
                  exists c', c' ∈ from_links ++ from_refs
                             /\ Py.rstrip_slash (url c') = Py.rstrip_slash (url c))
    /\ (length (gate_candidates data) <= 20)%nat.
Proof.
  unfold gate_candidates, _get_candidates. cbv zeta.
  rewrite (fold_left_fmap (fun a c => add_candidate c a) of_link).
  rewrite (fold_left_fmap (fun a c => add_candidate c a) of_ref).
  destruct (add_candidates_spec (map of_link (p_links data)) ([], ∅))
    as (ls & L1 & L2 & L3 & L4).
  { split; cbn; [|constructor]. intros u. rewrite elem_of_empty. split; [tauto|]. intros H; inversion H. }
  destruct (add_candidates_spec (map of_ref (p_refs data)) _ L2) as (rs & R1 & R2 & R3 & R4).
  cbn [fst app] in L1, L4. rewrite L1 in R1, R4.
  exists ls, rs. rewrite R1. repeat split; try assumption.
  - destruct R2 as [_ ND]. rewrite R1 in ND. exact ND.
  - intros c Hc Hne.
    assert (Hu : url c ∈ map url (ls ++ rs)).
    { apply elem_of_app in Hc as [Hc|Hc]; [|apply R4; assumption].
      rewrite map_app. apply elem_of_app. left. apply L4; assumption. }
    apply list_elem_of_fmap in Hu as (c' & E & Hc'). exists c'. split; [exact Hc'|].
    rewrite E. reflexivity.
  - apply firstn_le_length.
Qed.

(** C3 as stated fails: on a page with one link and one ref the list
    starts with the link, where the specification puts the ref first. *)
Lemma gate_candidates_not_refs_first :
  gate_candidates Inputs.page1 <> spec_candidates Inputs.page1.
Proof. vm_compute. discriminate. Qed.

(** A link and a ref that differ by a trailing slash are both kept: the
    set [seen] holds the URLs as they are. *)
Lemma gate_candidates_page2 :
  gate_candidates Inputs.page2
  = [Candidate "https://a.example/p" "a link" "near the link";
     Candidate "https://a.example/p/" "url" "near the ref"].
Proof. vm_compute. reflexivity. Qed.

(** *** The loop *)
Lemma take_upto_length {A} (k : Z) (l : list A) :
  (0 <= k)%Z -> (Z.of_nat (length (Py.take_upto k l)) <= k)%Z.
Proof.
  intros Hk. unfold Py.take_upto. destruct (Z.leb_spec 0 k); [|lia].
  rewrite length_firstn. lia.
Qed.

Lemma fold_run_invariant (P : state -> Prop) md thr mpl jl fs fb cr query seeds world :
  P (init seeds) ->
  (forall a st, P st -> P (iteration jl fs fb cr md thr mpl query a st)) ->
  P (run jl fs fb cr md thr mpl query seeds world).
Proof.
  intros H0 Hstep. unfold run. generalize (init seeds) H0.
  induction world as [|a world IH]; intros st Hst; simpl; [exact Hst|].
  apply IH, Hstep, Hst.
Qed.

Lemma iteration_bounded jl fs fb cr md thr mpl query a st :
  Forall (bounded mpl) (trace st) ->
  Forall (bounded mpl) (trace (iteration jl fs fb cr md thr mpl query a st)).
Proof.
  intros H. unfold iteration.
  repeat case_match; cbn [trace]; try exact H;
    repeat (apply Forall_app; split); try exact H;
    apply Forall_singleton; cbn [bounded]; try exact I.
  all: try apply firstn_le_length.
  intros Hk. rewrite length_map. apply take_upto_length. exact Hk.
Qed.


(** *** No canonical URL is fetched twice *)

Lemma fetches_app t1 t2 : fetches (t1 ++ t2) = fetches t1 ++ fetches t2.
Proof. apply omap_app. Qed.

Lemma fetched_once_fetch (st : state) u q n k tr' c :
  fetched_once st ->
  Py.rstrip_slash u ∉ visited st ->
  fetches tr' = fetches (trace st ++ [Fetch u]) ->
  fetched_once (State ({[Py.rstrip_slash u]} ∪ visited st) n k q tr' c).
Proof.
  intros [ND Hv] Hu E. unfold fetched_once. cbn [trace visited]. rewrite E, fetches_app.
  change (fetches [Fetch u]) with [u]. split.
  - rewrite map_app. apply NoDup_app. split; [exact ND|]. split.
    + intros x Hx Hx'. apply list_elem_of_singleton in Hx'. subst x.
      apply list_elem_of_fmap in Hx as (w & Ew & Hw). apply Hv in Hw. rewrite <- Ew in Hw. done.
    + apply NoDup_singleton.
  - intros w Hw. apply elem_of_app in Hw as [Hw|Hw].
    + apply elem_of_union_r, Hv, Hw.
    + apply list_elem_of_singleton in Hw. subst w. apply elem_of_union_l, elem_of_singleton. reflexivity.
Qed.

Lemma iteration_fetched_once jl fs fb cr md thr mpl query a st :
  fetched_once st -> fetched_once (iteration jl fs fb cr md thr mpl query a st).
Proof.
  intros H. unfold iteration.
  repeat case_match; try exact H;
    try (match goal with
         | Hb : _ || _ = false |- _ =>
             apply orb_false_iff in Hb as [Hb _]; apply bool_decide_eq_false in Hb
         end;
         apply fetched_once_fetch; [exact H|assumption|];
         rewrite ?fetches_app; cbn; rewrite ?app_nil_r; reflexivity).
Qed.


(** *** Depths *)

Lemma recorded_app t1 t2 : recorded (t1 ++ t2) = recorded t1 ++ recorded t2.
Proof. apply omap_app. Qed.

Lemma origin_mono seeds tr tr' e : origin seeds tr e -> origin seeds (tr ++ tr') e.
Proof.
  intros [H|(p & es & H1 & H2 & H3 & H4)]; [left; exact H|right].
  exists p, es. repeat split; try assumption.
  - apply elem_of_app. left. exact H1.
  - rewrite recorded_app. apply elem_of_app. left. exact H2.
Qed.

Lemma valid_split seeds md tr t1 ev t2 :
  valid seeds md tr -> tr = t1 ++ ev :: t2 -> record_ok seeds md t1 ev.
Proof.
  intros V. revert t2. induction V as [|tr ev0 V IH Hok]; intros t2 E.
  - destruct t1; discriminate.
  - destruct t2 as [|x t2 _] using rev_ind.
    + apply app_inj_tail in E as [-> ->]. exact Hok.
    + change (t1 ++ ev :: t2 ++ [x]) with (t1 ++ (ev :: t2) ++ [x]) in E.
      rewrite app_assoc in E. apply app_inj_tail in E as [-> _].
      apply (IH t2). reflexivity.
Qed.

Lemma valid_recorded_nonneg seeds md tr p :
  valid seeds md tr -> p ∈ recorded tr -> (0 <= n_depth p)%Z.
Proof.
  induction 1 as [|tr ev V IH Hok]; intros Hp; [inversion Hp|].
  rewrite recorded_app in Hp. apply elem_of_app in Hp as [Hp|Hp]; [exact (IH Hp)|].
  destruct ev; cbn in Hp; try (inversion Hp; fail).
  apply list_elem_of_singleton in Hp. subst p. cbn in Hok. lia.
Qed.

Lemma origin_nonneg seeds md tr e :
  valid seeds md tr -> origin seeds tr e -> (0 <= e_depth e)%Z.
Proof.
  intros V [H|(p & es & _ & Hp & _ & E)].
  - apply list_elem_of_fmap in H as (u & -> & _). cbn. lia.
  - pose proof (valid_recorded_nonneg _ _ _ _ V Hp). lia.
Qed.

Lemma init_depth_inv seeds md : depth_inv seeds md (init seeds).
Proof.
  unfold depth_inv, init. cbn. split; [reflexivity|]. split; [|constructor].
  intros e He. left. exact He.
Qed.

Lemma iteration_depth_inv jl fs fb cr md thr mpl query seeds a st :
  depth_inv seeds md st ->
  depth_inv seeds md (iteration jl fs fb cr md thr mpl query a st).
Proof.
  intros Hst. pose proof Hst as (Hn & Hq & Hv). unfold iteration.
  destruct (crashed st) eqn:Ec; [destruct (queue st); exact Hst|].
  destruct (queue st) as [|e q] eqn:Eq; [exact Hst|].
  assert (He : origin seeds (trace st) e) by (apply Hq; left).
  assert (Hq' : forall tr' e', e' ∈ q -> origin seeds (trace st ++ tr') e').
  { intros tr' e' He'. apply origin_mono, Hq. right. exact He'. }
  destruct (_ || _) eqn:Eskip.
  { split; [|split]; cbn; try assumption. intros e' He'. apply Hq. right. exact He'. }
  apply orb_false_iff in Eskip as [_ Hd]. apply Z.ltb_ge in Hd.
  destruct (fetched a) as [data|x].
  2:{ split; [|split]; cbn.
      - rewrite recorded_app. cbn. rewrite app_nil_r. exact Hn.
      - apply Hq'.
      - constructor; [exact Hv|exact I]. }
  assert (Hd0 : (0 <= e_depth e)%Z) by (eapply origin_nonneg; eassumption).
  set (n := Node _ _ _ _ _ _ _ _).
  assert (V2 : valid seeds md ((trace st ++ [Fetch (e_url e)]) ++ [Record_ e n])).
  { constructor; [constructor; [exact Hv|exact I]|].
    cbn. repeat split; try reflexivity; [exact Hd0|exact Hd|]. apply origin_mono, He. }
  assert (N2 : nodes st ++ [n] = recorded ((trace st ++ [Fetch (e_url e)]) ++ [Record_ e n])).
  { rewrite !recorded_app. cbn. rewrite app_nil_r, Hn. reflexivity. }
  assert (Q2 : forall tr' e', e' ∈ q ->
                 origin seeds (((trace st ++ [Fetch (e_url e)]) ++ [Record_ e n]) ++ tr') e').
  { intros tr' e' He'. rewrite <- !app_assoc. apply Hq', He'. }
  destruct (_ <=? _)%Z.
  { split; [|split]; cbn; [exact N2| |exact V2].
    intros e' He'. specialize (Q2 [] e' He'). rewrite app_nil_r in Q2. exact Q2. }
  destruct (_get_candidates data) as [|c0 cs].
  { split; [|split]; cbn; [exact N2| |exact V2].
    intros e' He'. specialize (Q2 [] e' He'). rewrite app_nil_r in Q2. exact Q2. }
  destruct (snd _) as [scored_|x].
  2:{ split; [|split]; cbn.
      - rewrite recorded_app. cbn. rewrite app_nil_r. exact N2.
      - apply Q2.
      - constructor; [exact V2|exact I]. }
  split; [|split]; cbn.
  - rewrite !recorded_app. cbn. rewrite !app_nil_r. rewrite !recorded_app in N2. cbn in N2.
    rewrite !app_nil_r in N2. exact N2.
  - intros e' He'. apply elem_of_app in He' as [He'|He'].
    + rewrite <- app_assoc. apply Q2, He'.
    + right. exists n, (map (entry_of (e_depth e)) (Py.take_upto mpl scored_)).
      split; [apply elem_of_app; right; left|]. split; [|split; [exact He'|]].
      * rewrite !recorded_app. cbn. rewrite !app_nil_r. apply elem_of_app. right. left.
      * apply list_elem_of_fmap in He' as (c & -> & _). reflexivity.
  - constructor; [constructor; [exact V2|exact I]|exact I].
Qed.

(** *** The claims about a crawl *)

(** C7, as amended.  In every state a crawl reaches, every candidate list
    handed to [score_candidates] has at most 20 entries, and for a
    [max_per_level] that is not negative every expansion of a node puts at
    most [max_per_level] entries on the queue. *)
Theorem track_bounds_branching
    (json_loads : string -> option Py.json)
    (float_of_str : string -> option Py.pyfloat) (float_of_big : Z -> option Py.pyfloat)
    (cr : creds) (max_depth : Z) (threshold : Py.pyfloat) (max_per_level : Z)
    (query : string) (seed_urls : list string) (world : list answers) :
  let st := run json_loads float_of_str float_of_big cr max_depth threshold max_per_level
                query seed_urls world in
  (forall cs, Gate cs ∈ trace st -> (length cs <= 20)%nat)
  /\ ((0 <= max_per_level)%Z ->
      forall p es, Enqueue p es ∈ trace st -> (Z.of_nat (length es) <= max_per_level)%Z).
Proof.
  intros st.
  assert (H : Forall (bounded max_per_level) (trace st)).
  { apply (fold_run_invariant (fun st => Forall (bounded max_per_level) (trace st))).
    - constructor.
    - intros a s. apply iteration_bounded. }
  rewrite Forall_forall in H. split.
  - intros cs Hcs. exact (H _ Hcs).
  - intros Hk p es Hes. exact (H _ Hes Hk).
Qed.

Lemma track_bounds_branching_witness :
  let st := run Inputs.loads1 Inputs.no_float_of_str Inputs.no_float_of_big Inputs.creds1
                3 Py.f_half 3 "q" Inputs.seeds1 Inputs.world1 in
  (0 <= 3)%Z
  /\ Enqueue Inputs.node_seed [Inputs.entry_y] ∈ trace st
  /\ (Z.of_nat (length [Inputs.entry_y]) <= 3)%Z.
Proof.
  intros st. split; [lia|].
  assert (H : Enqueue Inputs.node_seed [Inputs.entry_y] ∈ trace st).
  { apply list_elem_of_In. vm_compute. tauto. }
  split; [exact H|].
  refine (proj2 (track_bounds_branching Inputs.loads1 Inputs.no_float_of_str
                   Inputs.no_float_of_big Inputs.creds1 3 Py.f_half 3 "q"
                   Inputs.seeds1 Inputs.world1) _ Inputs.node_seed [Inputs.entry_y] H).
  lia.
Defined.

(** C6. In every state a crawl reaches, any two distinct calls of
    [fetch_thread_url] were made with URLs whose canonical forms (trailing
    slashes stripped) differ, however often a link was discovered or a
    seed repeated. *)
Theorem track_fetches_once
    (json_loads : string -> option Py.json)
    (float_of_str : string -> option Py.pyfloat) (float_of_big : Z -> option Py.pyfloat)
    (cr : creds) (max_depth : Z) (threshold : Py.pyfloat) (max_per_level : Z)
    (query : string) (seed_urls : list string) (world : list answers)
    (i j : nat) (u v : string) :
  let log := fetches (trace (run json_loads float_of_str float_of_big cr max_depth threshold
                                 max_per_level query seed_urls world)) in
  i <> j -> log !! i = Some u -> log !! j = Some v ->
  Py.rstrip_slash u <> Py.rstrip_slash v.
Proof.
  intros log Hij Hi Hj E.
  assert (H : fetched_once (run json_loads float_of_str float_of_big cr max_depth threshold
                                max_per_level query seed_urls world)).
  { apply (fold_run_invariant fetched_once).
    - split; [constructor|]. intros w Hw. inversion Hw.
    - intros a s. apply iteration_fetched_once. }
  destruct H as [ND _]. apply Hij.
  eapply (NoDup_lookup _ i j (Py.rstrip_slash u) ND).
  - rewrite list_lookup_fmap. fold log. rewrite Hi. reflexivity.
  - rewrite list_lookup_fmap. fold log. rewrite Hj, E. reflexivity.
Qed.

Lemma track_fetches_once_witness :
  let log := fetches (trace (run Inputs.loads1 Inputs.no_float_of_str Inputs.no_float_of_big
                                 Inputs.creds1 3 Py.f_half 3 "q" Inputs.seeds1 Inputs.world1)) in
  log = ["https://s.example/start/"; "https://a.example/y"]
  /\ Py.rstrip_slash "https://s.example/start/" <> Py.rstrip_slash "https://a.example/y".
Proof.
  intros log. split; [vm_compute; reflexivity|].
  apply (track_fetches_once Inputs.loads1 Inputs.no_float_of_str Inputs.no_float_of_big
           Inputs.creds1 3 Py.f_half 3 "q" Inputs.seeds1 Inputs.world1 0 1).
  - discriminate.
  - vm_compute. reflexivity.
  - vm_compute. reflexivity.
Defined.

(** C5. In every state a crawl reaches, the nodes are the nodes recorded
    in the trace, and a node recorded from a queue entry has the depth of
    that entry, between 0 and [max_depth]; the entry is the entry of a
    seed and the depth is 0, or the entry was put on the queue earlier,
    while an already recorded node was expanded, and the depth is that
    node's depth plus 1. *)
Theorem track_depths
    (json_loads : string -> option Py.json)
    (float_of_str : string -> option Py.pyfloat) (float_of_big : Z -> option Py.pyfloat)
    (cr : creds) (max_depth : Z) (threshold : Py.pyfloat) (max_per_level : Z)
    (query : string) (seed_urls : list string) (world : list answers) :
  let st := run json_loads float_of_str float_of_big cr max_depth threshold max_per_level
                query seed_urls world in
  nodes st = recorded (trace st)
  /\ forall t1 e n t2,
       trace st = t1 ++ Record_ e n :: t2 ->
       n_depth n = e_depth e
       /\ (0 <= n_depth n <= max_depth)%Z
       /\ ((e ∈ map seed_entry seed_urls /\ n_depth n = 0%Z)
           \/ exists p es, Enqueue p es ∈ t1 /\ p ∈ recorded t1 /\ e ∈ es
                           /\ n_depth n = (n_depth p + 1)%Z).
Proof.
  intros st.
  assert (H : depth_inv seed_urls max_depth st).
  { apply (fold_run_invariant (depth_inv seed_urls max_depth)).
    - apply init_depth_inv.
    - intros a s. apply iteration_depth_inv. }
  destruct H as (Hn & _ & Hv). split; [exact Hn|].
  intros t1 e n t2 E. pose proof (valid_split _ _ _ _ _ _ Hv E) as (_ & Hd & Hr & Ho).
  split; [exact Hd|]. split; [exact Hr|].
  destruct Ho as [Hs|(p & es & H1 & H2 & H3 & H4)].
  - left. split; [exact Hs|]. rewrite Hd.
    apply list_elem_of_fmap in Hs as (u & -> & _). reflexivity.
  - right. exists p, es. repeat split; try assumption. rewrite Hd. exact H4.
Qed.

Lemma track_depths_witness :
  let st := run Inputs.loads1 Inputs.no_float_of_str Inputs.no_float_of_big Inputs.creds1
                3 Py.f_half 3 "q" Inputs.seeds1 Inputs.world1 in
  let t1 := [Fetch "https://s.example/start/"; Record_ Inputs.entry_seed Inputs.node_seed;
             Gate [Inputs.cand_x; Inputs.cand_y]; Enqueue Inputs.node_seed [Inputs.entry_y];
             Fetch "https://a.example/y"] in
  trace st = t1 ++ Record_ Inputs.entry_y Inputs.node_y :: []
  /\ n_depth Inputs.node_y = e_depth Inputs.entry_y
  /\ (0 <= n_depth Inputs.node_y <= 3)%Z
  /\ ((Inputs.entry_y ∈ map seed_entry Inputs.seeds1 /\ n_depth Inputs.node_y = 0%Z)
      \/ exists p es, Enqueue p es ∈ t1 /\ p ∈ recorded t1 /\ Inputs.entry_y ∈ es
                      /\ n_depth Inputs.node_y = (n_depth p + 1)%Z).
Proof.
  intros st t1.
  assert (E : trace st = t1 ++ Record_ Inputs.entry_y Inputs.node_y :: [])
    by (vm_compute; reflexivity).
  split; [exact E|].
  exact (proj2 (track_depths Inputs.loads1 Inputs.no_float_of_str Inputs.no_float_of_big
                  Inputs.creds1 3 Py.f_half 3 "q" Inputs.seeds1 Inputs.world1)
               t1 Inputs.entry_y Inputs.node_y [] E).
Defined.

(** *** Whole crawls *)

(** The crawl of [Inputs.world1]: the repeated seed is skipped, the link
    kept by the relevance gate is followed, and [track] returns two nodes. *)
Lemma track_example :
  track Inputs.loads1 Inputs.no_float_of_str Inputs.no_float_of_big Inputs.creds1
        Inputs.world1 "q" Inputs.seeds1 3 Py.f_half 3
  = Some (Result "q" "The start page links to two pages."
                 [Inputs.node_seed; Inputs.node_y] 2).
Proof. vm_compute. reflexivity. Qed.

(** With [max_depth = 0] a seed is fetched and not expanded. *)
Lemma track_depth_zero :
  track Inputs.loads1 Inputs.no_float_of_str Inputs.no_float_of_big Inputs.creds1
        [Answers (Py.Ok Inputs.page_seed) Inputs.post_scores] "q"
        ["https://s.example/start/"] 0 Py.f_half 3
  = Some (Result "q" "The start page links to two pages." [Inputs.node_seed] 1).
Proof. vm_compute. reflexivity. Qed.

(** When the service answers null to the scoring prompt, the exception of
    [score_candidates] ends the crawl: [track] returns nothing. *)
Lemma track_halts_on_null_answer :
  crashed (run Inputs.loads1 Inputs.no_float_of_str Inputs.no_float_of_big Inputs.creds1
               3 Py.f_half 3 "q" Inputs.seeds1 Inputs.world_null)
  = Some (Py.Exn Py.TypeError "'NoneType' object is not iterable")
  /\ track Inputs.loads1 Inputs.no_float_of_str Inputs.no_float_of_big Inputs.creds1
           Inputs.world_null "q" Inputs.seeds1 3 Py.f_half 3 = None.
Proof. split; vm_compute; reflexivity. Qed.

(** C7 as stated fails for a negative [max_per_level], which is a slice
    bound counted from the end: with [max_per_level = -1] and two
    candidates at or above the threshold, one entry is put on the queue. *)
Lemma track_negative_max_per_level :
  let st := run Inputs.loads1 Inputs.no_float_of_str Inputs.no_float_of_big Inputs.creds1
                3 Py.f_half (-1) "q" ["https://s.example/start/"] Inputs.world_three in
  Enqueue Inputs.node_seed [Inputs.entry_y] ∈ trace st
  /\ queue st = [Inputs.entry_y]
  /\ ~ (Z.of_nat (length [Inputs.entry_y]) <= -1)%Z.
Proof.
  intros st. split; [|split].
  - apply list_elem_of_In. vm_compute. tauto.
  - vm_compute. reflexivity.
  - simpl. lia.
Qed.

(** With [max_per_level = 3] both are put on the queue. *)
Lemma track_three_links :
  queue (run Inputs.loads1 Inputs.no_float_of_str Inputs.no_float_of_big Inputs.creds1
             3 Py.f_half 3 "q" ["https://s.example/start/"] Inputs.world_three)
  = [Inputs.entry_y; Inputs.entry_z].
Proof. vm_compute. reflexivity. Qed.

End ChainTrackerFacts.

(** ** Further properties *)
Module MoreFacts.
Import FetchThread RelevanceGate ChainTracker Props MoreProps.

(** *** Reference extraction *)
Lemma add_inv t u c a : acc_inv a -> acc_inv (_add t u c a).
Proof.
  intros [ND Hs]. unfold _add. case_bool_decide as Hin; [split; assumption|].
  split; cbn [refs seen_urls].
  - rewrite map_app. apply NoDup_app. split; [exact ND|]. split; [|apply NoDup_singleton].
    intros x Hx Hx'. apply list_elem_of_singleton in Hx'. subst x.
    apply list_elem_of_fmap in Hx as (r & E & Hr). apply Hs in Hr. rewrite <- E in Hr.
    exact (Hin Hr).
  - intros r Hr. apply elem_of_app in Hr as [Hr|Hr].
    + apply elem_of_union_r, Hs, Hr.
    + apply list_elem_of_singleton in Hr. subst r. apply elem_of_union_l, elem_of_singleton.
      reflexivity.
Qed.

Lemma on_match_inv text ctx k mt a : acc_inv a -> acc_inv (on_match text ctx k mt a).
Proof.
  intros H. unfold on_match. destruct k; cbv zeta;
    repeat match goal with |- context [if ?b then _ else _] => destruct b end;
    try exact H; apply add_inv, H.
Qed.

Lemma fold_inv {A} (P : acc -> Prop) (f : acc -> A -> acc) l a :
  (forall a x, P a -> P (f a x)) -> P a -> P (fold_left f l a).
Proof.
  intros Hf. revert a. induction l as [|x l IH]; intros a Ha; simpl; [exact Ha|].
  apply IH, Hf, Ha.
Qed.

Lemma run_patterns_inv (P : acc -> Prop) text ctx ps a :
  (forall k mt a, P a -> P (on_match text ctx k mt a)) -> P a ->
  P (run_patterns text ctx ps a).
Proof.
  intros Hm Ha. unfold run_patterns. apply fold_inv; [|exact Ha].
  intros a' pk Ha'. apply fold_inv; [|exact Ha']. intros a'' mt. apply Hm.
Qed.

Lemma extract_refs_nodup text ctx : NoDup (map canon (extract_refs text ctx)).
Proof.
  unfold extract_refs. destruct (negb _); [constructor|].
  apply (run_patterns_inv acc_inv).
  - intros k mt a. apply on_match_inv.
  - split; [constructor|]. intros r Hr. inversion Hr.
Qed.


Lemma prefix_app p s t : String.prefix p s = true -> String.prefix p (s +:+ t) = true.
Proof.
  revert s. induction p as [|c p IH]; intros s H; [destruct (s +:+ t); reflexivity|].
  destruct s as [|d s]; [discriminate|].
  change (String d s +:+ t) with (String d (s +:+ t)). simpl in *.
  destruct (Ascii.ascii_dec c d); [apply IH; exact H|discriminate].
Qed.

Lemma fold_append_prefix p parts s :
  String.prefix p s = true -> String.prefix p (fold_left String.append parts s) = true.
Proof.
  revert s. induction parts as [|x parts IH]; intros s H; simpl; [exact H|].
  apply IH, prefix_app, H.
Qed.

Lemma gh_prefix parts : Py.startswith "https://github.com/" (gh parts) = true.
Proof. apply fold_append_prefix. reflexivity. Qed.

Lemma add_shape t u c a :
  ref_shape (Ref t u c) -> Forall ref_shape (refs a) -> Forall ref_shape (refs (_add t u c a)).
Proof.
  intros Hr H. unfold _add. case_bool_decide; [exact H|]. cbn [refs].
  apply Forall_app. split; [exact H|]. apply Forall_singleton, Hr.
Qed.

Ltac github_shape :=
  right; split; [apply list_elem_of_In; simpl; tauto|apply gh_prefix].

Lemma on_match_shape text ctx k mt a :
  Forall ref_shape (refs a) -> Forall ref_shape (refs (on_match text ctx k mt a)).
Proof.
  intros H. unfold on_match. destruct k; cbv zeta;
    repeat match goal with |- context [if ?b then _ else _] => destruct b end;
    try exact H; apply add_shape; try exact H; try github_shape.
  left. reflexivity.
Qed.

(** X2. Every ref that [extract_refs] returns has the type url, or one of
    the types issue, pr, discussion, commit, duplicate and related together
    with a URL that starts with https://github.com/. *)
Theorem extract_refs_shapes text ctx : Forall ref_shape (extract_refs text ctx).
Proof.
  unfold extract_refs. destruct (negb _); [constructor|].
  apply (run_patterns_inv (fun a => Forall ref_shape (refs a))).
  - intros k mt a. apply on_match_shape.
  - constructor.
Qed.

Lemma fold_left_filter_inert {A B} (f : A -> B -> A) (p : B -> bool) l a :
  (forall a x, p x = false -> f a x = a) ->
  fold_left f l a = fold_left f (List.filter p l) a.
Proof.
  intros H. revert a. induction l as [|x l IH]; intros a; simpl; [reflexivity|].
  destruct (p x) eqn:E; simpl; [apply IH|]. rewrite (H a x E). apply IH.
Qed.

Lemma on_match_inert text k mt a :
  needs_context k = true -> on_match text "" k mt a = a.
Proof. destruct k; try discriminate; reflexivity. Qed.

Lemma run_patterns_without_context text a :
  run_patterns text "" _REF_PATTERNS a = run_patterns text "" context_free_patterns a.
Proof.
  unfold run_patterns, context_free_patterns. apply fold_left_filter_inert.
  intros a' pk Hk. apply negb_false_iff in Hk.
  induction (Re.finditer (fst pk) text) as [|mt l IH]; simpl; [reflexivity|].
  rewrite (on_match_inert _ _ _ _ Hk). exact IH.
Qed.

(** X3. Without a repository context the patterns GH-n, bare 40-digit SHA,
    "duplicate of #n" and "see also #n" add nothing, whatever the text:
    [extract_refs] returns what the other five patterns yield. *)
Theorem extract_refs_without_context text :
  extract_refs text ""
  = if Py.nonempty text
    then refs (run_patterns text "" context_free_patterns (Acc [] ∅))
    else [].
Proof.
  unfold extract_refs. destruct (Py.nonempty text); cbn [negb]; [|reflexivity].
  rewrite run_patterns_without_context. reflexivity.
Qed.

(** The five patterns are those of the kinds issue_ref, github_url,
    commit_url, duplicate_url and external_url. *)
Lemma context_free_kinds :
  map snd context_free_patterns
  = [issue_ref; github_url; commit_url; duplicate_url; external_url].
Proof. reflexivity. Qed.

(** *** The GitHub issue fetcher *)

Ltac inv_bind H :=
  repeat (let x := fresh "x" in let E := fresh "E" in
          apply RelevanceGateFacts.bind_ok in H as (x & E & H)).

Section GitHub.

Context (http : string -> list (string * string) -> list (string * string) -> Py.res response)
        (repr : Py.json -> string).

Lemma read_issue_keeps owner repo number issue result r :
  read_issue owner repo number issue result = Py.Ok r ->
  d_comments r = d_comments result /\ d_refs r = d_refs result /\ d_error r = d_error result
  /\ (d_type r = d_type result \/ d_type r = "github_pr").
Proof.
  unfold read_issue. intros H. inv_bind H. injection H as <-. cbn.
  repeat split. destruct (Py.truthy x); [right|left]; reflexivity.
Qed.

Lemma add_comments_count mc cs fetched st fetched' st' :
  add_comments mc cs fetched st = Py.Ok (fetched', st') ->
  (fetched < mc)%Z ->
  (Z.of_nat (length (d_comments (fst st'))) - Z.of_nat (length (d_comments (fst st)))
   = fetched' - fetched)%Z
  /\ (fetched <= fetched' <= mc)%Z
  /\ d_type (fst st') = d_type (fst st).
Proof.
  revert fetched st. induction cs as [|c cs IH]; intros fetched st H Hlt.
  - injection H as <- <-. repeat split; lia.
  - cbn [add_comments] in H. inv_bind H.
    destruct (mc <=? fetched + 1)%Z eqn:Ecap.
    + injection H as <- <-. cbn. rewrite length_app. cbn. repeat split; lia.
    + apply Z.leb_gt in Ecap. apply IH in H as (H1 & H2 & H3); [|exact Ecap].
      cbn in H1, H3. rewrite length_app in H1. cbn in H1. repeat split; try lia. exact H3.
Qed.

Lemma comment_pages_count fuel base headers number mc per_page page fetched st st' :
  comment_pages http fuel base headers number mc per_page page fetched st = Py.Ok st' ->
  Z.of_nat (length (d_comments (fst st))) = fetched ->
  (Z.of_nat (length (d_comments (fst st'))) <= Z.max fetched mc)%Z
  /\ d_type (fst st') = d_type (fst st).
Proof.
  revert page fetched st. induction fuel as [|fuel IH]; intros page fetched st H Hf.
  - injection H as <-. split; [lia|reflexivity].
  - cbn [comment_pages] in H.
    destruct (fetched <? mc)%Z eqn:Elt; cbn [negb] in H;
      [|injection H as <-; split; [lia|reflexivity]].
    apply Z.ltb_lt in Elt.
    destruct (http _ _ _) as [r|e]; [|injection H as <-; split; [lia|reflexivity]].
    destruct (400 <=? status r)%Z; [injection H as <-; split; [lia|reflexivity]|].
    destruct (Py.truthy (json_ r)); cbn [negb] in H;
      [|injection H as <-; split; [lia|reflexivity]].
    inv_bind H. destruct x0 as [fetched' st1].
    apply add_comments_count in E0 as (H1 & H2 & H3); [|exact Elt].
    destruct (_ <? _)%Z.
    + injection H as <-. cbn. split; [lia|exact H3].
    + cbn [fst snd] in H. apply IH in H as [H4 H5]; [|lia].
      split; [lia|]. rewrite H5. exact H3.
Qed.

Lemma add_reviews_type rs st : d_type (fst (add_reviews repr rs st)) = d_type (fst st).
Proof.
  revert st. induction rs as [|review rs IH]; intros st; cbn [add_reviews]; [reflexivity|].
  destruct (Py.get review "body" _); [|reflexivity].
  destruct (Py.or_ _ _); try reflexivity.
  destruct (Py.nonempty _); [|apply IH].
  destruct (_ ≫= _); [|reflexivity].
  destruct (iadd_str _ _); [|reflexivity]. rewrite IH. reflexivity.
Qed.

Lemma fetch_reviews_type base headers number st :
  d_type (fst (fetch_reviews http repr base headers number st)) = d_type (fst st).
Proof.
  unfold fetch_reviews. destruct (String.eqb _ _); [|reflexivity].
  destruct (http _ _ _); [|reflexivity]. destruct (_ && _); [|reflexivity].
  destruct (Py.iter _); [apply add_reviews_type|reflexivity].
Qed.

Lemma fetch_reviews_issue base headers number st :
  d_type (fst (fetch_reviews http repr base headers number st)) = "github_issue" ->
  fetch_reviews http repr base headers number st = st.
Proof.
  rewrite fetch_reviews_type. intros H. unfold fetch_reviews. rewrite H. reflexivity.
Qed.

Lemma enrich_keeps owner repo number token result ctx d :
  _enrich_with_timeline http repr owner repo number token result ctx = Py.Ok d ->
  d_comments d = d_comments result /\ d_type d = d_type result
  /\ (d_refs d = d_refs result \/ exists rs, d_refs d = dedup_refs rs).
Proof.
  unfold _enrich_with_timeline. cbv zeta.
  destruct (http _ _ _) as [r|e]; [|intros H; injection H as <-; auto].
  destruct (negb _); [intros H; injection H as <-; auto|].
  intros H. inv_bind H. injection H as <-. cbn. eauto.
Qed.

(** X4. A document of type github_issue that [fetch_github_issue] returns
    has at most [max_comments] comments (none when [max_comments] is
    negative), however many the API sends per page. *)
Theorem fetch_github_issue_comment_cap owner repo number token max_comments d :
  fetch_github_issue http repr owner repo number token max_comments = Py.Ok d ->
  d_type d = "github_issue" ->
  (Z.of_nat (length (d_comments d)) <= Z.max 0 max_comments)%Z.
Proof.
  unfold fetch_github_issue. cbv zeta.
  destruct (http _ _ _) as [r|e]; [|intros H; injection H as <-; cbn; lia].
  destruct (400 <=? status r)%Z; [intros H; injection H as <-; cbn; lia|].
  intros H Ht. inv_bind H.
  apply enrich_keeps in H as (Hc & Hty & _). cbn in Hc, Hty.
  rewrite Hc. rewrite Hty in Ht. rewrite (fetch_reviews_issue _ _ _ _ Ht).
  apply read_issue_keeps in E as (Hc0 & _). cbn in Hc0.
  apply comment_pages_count in E0 as [H1 _]; [exact H1|]. cbn. rewrite Hc0. reflexivity.
Qed.

Lemma dedup_refs_distinct rs : NoDup (map canon (dedup_refs rs)).
Proof.
  unfold dedup_refs.
  assert (G : forall (a : list ref * gset string),
             (NoDup (map canon (fst a)) /\ forall r, r ∈ fst a -> canon r ∈ snd a) ->
             NoDup (map canon (fst (fold_left
               (fun (a : list ref * gset string) r =>
                  let key := Py.rstrip_slash (ref_url r) in
                  if bool_decide (key ∈ snd a) then a
                  else (fst a ++ [r], {[key]} ∪ snd a)) rs a)))).
  { induction rs as [|r rs IH]; intros a Ha; cbn [fold_left]; [apply Ha|].
    apply IH. cbv zeta. case_bool_decide as Hin; [exact Ha|].
    destruct Ha as [ND Hs]. split; cbn [fst snd].
    - rewrite map_app. apply NoDup_app. split; [exact ND|]. split; [|apply NoDup_singleton].
      intros x Hx Hx'. apply list_elem_of_singleton in Hx'. subst x.
      apply list_elem_of_fmap in Hx as (r' & E & Hr). apply Hs in Hr. rewrite <- E in Hr.
      exact (Hin Hr).
    - intros r' Hr. apply elem_of_app in Hr as [Hr|Hr].
      + apply elem_of_union_r, Hs, Hr.
      + apply list_elem_of_singleton in Hr. subst r'.
        apply elem_of_union_l, elem_of_singleton. reflexivity. }
  apply G. split; [constructor|]. intros r Hr. inversion Hr.
Qed.

Lemma extract_refs_of_distinct all_text ctx rs :
  extract_refs_of all_text ctx = Py.Ok rs -> NoDup (map canon rs).
Proof.
  unfold extract_refs_of. destruct all_text;
    try (destruct (Py.truthy _); [discriminate|intros H; injection H as <-; constructor]).
  intros H. injection H as <-. apply extract_refs_nodup.
Qed.

(** X5. The refs of a document that [fetch_github_issue] returns have
    pairwise distinct canonical URLs, whether they come from the text
    alone or were merged with the timeline events. *)
Theorem fetch_github_issue_refs_distinct owner repo number token max_comments d :
  fetch_github_issue http repr owner repo number token max_comments = Py.Ok d ->
  NoDup (map canon (d_refs d)).
Proof.
  unfold fetch_github_issue. cbv zeta.
  destruct (http _ _ _) as [r|e]; [|intros H; injection H as <-; constructor].
  destruct (400 <=? status r)%Z; [intros H; injection H as <-; constructor|].
  intros H. inv_bind H.
  apply enrich_keeps in H as (_ & _ & [Hr|(rs & Hr)]); rewrite Hr.
  - cbn. eapply extract_refs_of_distinct. exact E1.
  - apply dedup_refs_distinct.
Qed.

(** X6. When the request for the issue raises or is answered with a status
    of 400 or more, [fetch_github_issue] returns the document it started
    with (no title, body, comments or refs) with [error] set, whatever the
    other requests would answer. *)
Theorem fetch_github_issue_refused owner repo number token max_comments :
  (forall r, http (api_base owner repo +:+ "/issues/" +:+ Py.str_of_Z number)
                  (_gh_headers token) [] = Py.Ok r -> (400 <= status r)%Z) ->
  exists msg,
    fetch_github_issue http repr owner repo number token max_comments
    = Py.Ok (Document ("https://github.com/" +:+ owner +:+ "/" +:+ repo +:+ "/issues/"
                       +:+ Py.str_of_Z number)
                      "github_issue" (Py.JStr "") (Py.JStr "") (Py.JStr "") [] [] [] []
                      (Some msg)).
Proof.
  intros H. unfold fetch_github_issue. cbv zeta.
  destruct (http _ _ _) as [r|e] eqn:E.
  - specialize (H r eq_refl). destruct (Z.leb_spec 400 (status r)); [|lia].
    eexists. reflexivity.
  - eexists. reflexivity.
Qed.

End GitHub.

Lemma fetch_github_issue_comment_cap_witness :
  exists d,
    fetch_github_issue http_issue Inputs.no_repr "o" "r" 1 None 1 = Py.Ok d
    /\ d_type d = "github_issue"
    /\ length (d_comments d) = 1%nat
    /\ (Z.of_nat (length (d_comments d)) <= Z.max 0 1)%Z.
Proof.
  eexists. split; [vm_compute; reflexivity|]. split; [reflexivity|]. split; [reflexivity|].
  eapply (fetch_github_issue_comment_cap http_issue Inputs.no_repr "o" "r" 1 None 1).
  - vm_compute. reflexivity.
  - reflexivity.
Defined.

Lemma fetch_github_issue_refs_distinct_witness :
  exists d,
    fetch_github_issue http_issue Inputs.no_repr "o" "r" 1 None 100 = Py.Ok d
    /\ map ref_url (d_refs d) = ["https://github.com/o/r/issues/42"]
    /\ NoDup (map canon (d_refs d)).
Proof.
  eexists. split; [vm_compute; reflexivity|]. split; [reflexivity|].
  eapply (fetch_github_issue_refs_distinct http_issue Inputs.no_repr "o" "r" 1 None 100).
  vm_compute. reflexivity.
Defined.

Lemma fetch_github_issue_refused_witness :
  exists msg,
    fetch_github_issue http_refused Inputs.no_repr "o" "r" 1 None 100
    = Py.Ok (Document "https://github.com/o/r/issues/1" "github_issue"
                      (Py.JStr "") (Py.JStr "") (Py.JStr "") [] [] [] [] (Some msg)).
Proof.
  apply (fetch_github_issue_refused http_refused Inputs.no_repr "o" "r" 1 None 100).
  intros r H. injection H as <-. cbn. lia.
Defined.

(** *** The relevance gate *)
Lemma chars_app s t : Py.chars (s +:+ t) = Py.chars s ++ Py.chars t.
Proof.
  unfold Py.chars. induction s as [|c s IH]; [reflexivity|].
  change (String c s +:+ t) with (String c (s +:+ t)). simpl. rewrite IH. reflexivity.
Qed.

Lemma str_chars s : Py.str (Py.chars s) = s.
Proof. apply string_of_list_ascii_of_string. Qed.

Lemma chars_str l : Py.chars (Py.str l) = l.
Proof. apply list_ascii_of_string_of_list_ascii. Qed.

Lemma str_app l1 l2 : Py.str (l1 ++ l2) = Py.str l1 +:+ Py.str l2.
Proof.
  rewrite <- (str_chars (Py.str l1 +:+ Py.str l2)), chars_app, !chars_str. reflexivity.
Qed.

Lemma after_first_newline_app l r :
  forallb (fun c => negb (Ascii.eqb c Py.newline)) l = true ->
  after_first_newline (l ++ Py.newline :: r) = r.
Proof.
  induction l as [|c l IH]; simpl; intros H.
  - reflexivity.
  - apply andb_true_iff in H as [Hc Hl]. apply negb_true_iff in Hc. rewrite Hc.
    apply IH, Hl.
Qed.

Lemma after_first_newline_none l :
  forallb (fun c => negb (Ascii.eqb c Py.newline)) l = true ->
  after_first_newline l = [].
Proof.
  induction l as [|c l IH]; simpl; intros H; [reflexivity|].
  apply andb_true_iff in H as [Hc Hl]. apply negb_true_iff in Hc. rewrite Hc.
  apply IH, Hl.
Qed.

(** Stripping at the right end goes through a stripped character. *)
Lemma rstrip_by_snoc p l c :
  p c = true -> Py.rstrip_by p (Py.str (l ++ [c])) = Py.rstrip_by p (Py.str l).
Proof.
  intros H. unfold Py.rstrip_by. rewrite !chars_str, rev_app_distr. simpl. rewrite H.
  reflexivity.
Qed.

Lemma rstrip_by_stop p l c :
  p c = false -> Py.rstrip_by p (Py.str (l ++ [c])) = Py.str (l ++ [c]).
Proof.
  intros H. unfold Py.rstrip_by. rewrite !chars_str, rev_app_distr. simpl. rewrite H.
  change (c :: rev l) with ([c] ++ rev l). rewrite rev_app_distr, rev_involutive.
  reflexivity.
Qed.

Lemma lstrip_by_stop p c s : p c = false -> Py.lstrip_by p (String c s) = String c s.
Proof.
  intros H. unfold Py.lstrip_by, Py.chars. simpl. rewrite H.
  change (Py.str (c :: list_ascii_of_string s)) with (String c (Py.str (Py.chars s))).
  rewrite str_chars. reflexivity.
Qed.

Lemma rstrip_by_last p s l c :
  Py.chars s = l ++ [c] -> p c = false -> Py.rstrip_by p s = s.
Proof.
  intros E H. unfold Py.rstrip_by. rewrite E, rev_app_distr. simpl. rewrite H.
  change (c :: rev l) with ([c] ++ rev l). rewrite rev_app_distr, rev_involutive.
  simpl. rewrite <- E. apply str_chars.
Qed.

Lemma strip_fenced info payload : Py.strip (fenced info payload) = fenced info payload.
Proof.
  unfold fenced, Py.strip, Py.strip_by.
  rewrite (rstrip_by_last Py.isspace _
             (Py.chars ("```" +:+ info +:+ nl +:+ payload +:+ nl +:+ "``")) "`"%char).
  - apply lstrip_by_stop. reflexivity.
  - rewrite !chars_app, <- !app_assoc. reflexivity.
  - reflexivity.
Qed.

(** X10. [strip_fences] unwraps a fenced answer: for an opening fence with
    an info string on the first line, the payload, and a closing fence on
    a line of its own, the text handed to [json.loads] is the payload
    without its leading and trailing whitespace, also when the payload
    itself ends in backquotes. *)
Theorem strip_fences_fenced info payload :
  one_line info = true ->
  strip_fences (fenced info payload) = Py.strip payload.
Proof.
  intros Hinfo. unfold strip_fences. cbv zeta. rewrite strip_fenced.
  assert (P : Py.startswith "```" (fenced info payload) = true).
  { unfold fenced. apply prefix_app. reflexivity. }
  rewrite P. unfold fenced.
  assert (A : after_first_newline
                (Py.chars ("```" +:+ info +:+ nl +:+ payload +:+ nl +:+ "```"))
              = Py.chars payload ++ [Py.newline] ++ ["`"; "`"; "`"]%char).
  { rewrite !chars_app. rewrite app_assoc.
    change (Py.chars nl) with [Py.newline]. cbn [app].
    rewrite after_first_newline_app; [reflexivity|].
    rewrite forallb_app. apply andb_true_iff. split; [reflexivity|exact Hinfo]. }
  rewrite A.
  change ([Py.newline] ++ ["`"; "`"; "`"]%char)
    with ((([Py.newline] ++ ["`"]) ++ ["`"]) ++ ["`"])%char.
  rewrite !app_assoc.
  rewrite !rstrip_by_snoc by reflexivity.
  rewrite rstrip_by_stop by reflexivity.
  unfold Py.strip, Py.strip_by. rewrite rstrip_by_snoc by reflexivity.
  rewrite str_chars. reflexivity.
Qed.

Lemma strip_fences_one_line raw :
  Py.startswith "```" (Py.strip raw) = true -> one_line (Py.strip raw) = true ->
  strip_fences raw = "".
Proof.
  intros P L. unfold strip_fences. cbv zeta. rewrite P.
  rewrite after_first_newline_none by exact L. reflexivity.
Qed.

Lemma unscored_descending reason cands : descending (unscored reason cands).
Proof.
  unfold descending, unscored. induction cands as [|c cands IH]; simpl; constructor.
  - exact IH.
  - apply Forall_forall. intros s Hs. apply list_elem_of_fmap in Hs as (c' & -> & _).
    reflexivity.
Qed.

Section Gate.

Context (post : string -> string -> string -> string -> Py.res Py.json)
        (stored : creds)
        (json_loads : string -> option Py.json)
        (float_of_str : string -> option Py.pyfloat)
        (float_of_big : Z -> option Py.pyfloat).

Lemma merge_step_passes sm thr result ic out :
  merge_step float_of_str float_of_big sm thr result ic = Py.Ok out ->
  Forall (passes thr) result -> Forall (passes thr) out.
Proof.
  unfold merge_step. intros H Hr. inv_bind H.
  destruct (Py.fge x0 thr) eqn:Ege.
  - inv_bind H. injection H as <-. apply Forall_app. split; [exact Hr|].
    constructor; [exact Ege|constructor].
  - injection H as <-. exact Hr.
Qed.

Lemma merge_fold_passes sm thr ics acc out :
  Py.foldM (merge_step float_of_str float_of_big sm thr) ics acc = Py.Ok out ->
  Forall (passes thr) acc -> Forall (passes thr) out.
Proof.
  revert acc. induction ics as [|ic ics IH]; intros acc H Ha; simpl in H.
  - injection H as <-. exact Ha.
  - destruct (merge_step _ _ sm thr acc ic) as [acc'|] eqn:E; [|discriminate].
    simpl in H. eapply IH; [exact H|]. eapply merge_step_passes; eassumption.
Qed.

Lemma passes_ordered thr l : Forall (passes thr) l -> scores_ordered l.
Proof.
  intros H. eapply Forall_impl; [exact H|]. intros s Hs.
  eapply PyFacts.fge_notnan_l, Hs.
Qed.

(** What [parse_and_merge] returns is descending and passes. *)
Lemma parse_and_merge_kept raw thr cands out :
  parse_and_merge json_loads float_of_str float_of_big raw thr cands = Py.Ok out ->
  out = unscored "parse error" cands
  \/ (Forall (passes thr) out /\ descending out).
Proof.
  unfold parse_and_merge. destruct (json_loads _) as [scores|].
  - intros H. inv_bind H. injection H as <-. right.
    apply merge_fold_passes in E0; [|constructor].
    split.
    + rewrite RelevanceGateFacts.sort_desc_perm. exact E0.
    + apply RelevanceGateFacts.sort_desc_descending, (passes_ordered thr), E0.
  - intros H. injection H as <-. left. reflexivity.
Qed.

Lemma score_candidates_cases query cands ks thr c out :
  snd (score_candidates post stored json_loads float_of_str float_of_big
                        query cands ks thr c) = Py.Ok out ->
  out = unscored "LLM unavailable" cands
  \/ out = unscored "parse error" cands
  \/ (Forall (passes thr) out /\ descending out).
Proof.
  destruct cands as [|c0 cands].
  - simpl. intros H. injection H as <-. left. reflexivity.
  - unfold score_candidates. cbv zeta.
    destruct (_call_llm _ _ _) as [calls [v|e]]; cbn [snd].
    + destruct v; try discriminate. intros H. right.
      eapply parse_and_merge_kept, H.
    + intros H. injection H as <-. left. reflexivity.
Qed.

(** X7. What [score_candidates] returns is one of three things: every
    candidate at 0.5 with the reason "LLM unavailable", every candidate at
    0.5 with the reason "parse error", or items whose score is at least
    the threshold.  No item below the threshold is returned on the merge
    path, whatever the answer holds. *)
Theorem score_candidates_threshold query cands ks thr c out :
  snd (score_candidates post stored json_loads float_of_str float_of_big
                        query cands ks thr c) = Py.Ok out ->
  out = unscored "LLM unavailable" cands
  \/ out = unscored "parse error" cands
  \/ Forall (passes thr) out.
Proof.
  intros H. apply score_candidates_cases in H as [H|[H|[H _]]]; auto.
Qed.

(** X8. Whenever [score_candidates] returns, its output is descending by
    score, also for an answer with entries that are missing, repeated or
    out of range: an item that passes the threshold has a score that is
    not a NaN, so the sort orders them all. *)
Theorem score_candidates_descending query cands ks thr c out :
  snd (score_candidates post stored json_loads float_of_str float_of_big
                        query cands ks thr c) = Py.Ok out ->
  descending out.
Proof.
  intros H. apply score_candidates_cases in H as [->|[->|[_ H]]];
    [apply unscored_descending..|exact H].
Qed.

(** X9. Without an API key (no ["grok_key"], or an empty one)
    [score_candidates] sends nothing to the service and returns every
    candidate, in order, with the score 0.5 and the reason
    "LLM unavailable". *)
Theorem score_candidates_without_key query cands ks thr c :
  Py.nonempty (opt_str (grok_key (resolve_creds stored c)) "") = false ->
  score_candidates post stored json_loads float_of_str float_of_big query cands ks thr c
  = ([], Py.Ok (unscored "LLM unavailable" cands)).
Proof.
  intros H. destruct cands as [|c0 cands]; [reflexivity|].
  unfold score_candidates, _call_llm. cbv zeta. rewrite H. reflexivity.
Qed.

(** X11. A fenced answer on a single line (no newline after the opening
    fence) is emptied by the fence stripping, so [json.loads] gets the
    empty text, fails, and every candidate comes back at 0.5 with the
    reason "parse error", whatever stood between the fences. *)
Theorem score_candidates_one_line_fence query cands ks thr c raw :
  cands <> [] ->
  snd (_call_llm post (_build_prompt query ks cands) (resolve_creds stored c))
  = Py.Ok (Py.JStr raw) ->
  Py.startswith "```" (Py.strip raw) = true -> one_line (Py.strip raw) = true ->
  json_loads "" = None ->
  snd (score_candidates post stored json_loads float_of_str float_of_big query cands ks thr c)
  = Py.Ok (unscored "parse error" cands).
Proof.
  intros Hne Hcall P L J. destruct cands as [|c0 cands]; [congruence|].
  unfold score_candidates. cbv zeta.
  destruct (_call_llm _ _ _) as [calls r]. cbn [snd] in *. subst r.
  unfold parse_and_merge. rewrite strip_fences_one_line by assumption. rewrite J.
  reflexivity.
Qed.

End Gate.

Lemma score_candidates_threshold_witness :
  let cands := [Inputs.cand1; Inputs.cand2; Inputs.cand3] in
  let out := [with_score Inputs.cand2 (Py.FFin (3 # 4)) (Py.JStr "relevant");
              with_score Inputs.cand3 (Py.FFin (3 # 4)) (Py.JStr "also relevant")] in
  snd (score_candidates Inputs.post_scores Inputs.creds1 Inputs.loads1
                        Inputs.no_float_of_str Inputs.no_float_of_big
                        "q" cands "" Py.f_half None) = Py.Ok out
  /\ (out = unscored "LLM unavailable" cands \/ out = unscored "parse error" cands
      \/ Forall (passes Py.f_half) out).
Proof.
  split; [vm_compute; reflexivity|].
  apply (score_candidates_threshold Inputs.post_scores Inputs.creds1 Inputs.loads1
           Inputs.no_float_of_str Inputs.no_float_of_big "q"
           [Inputs.cand1; Inputs.cand2; Inputs.cand3] "" Py.f_half None).
  vm_compute. reflexivity.
Defined.

Lemma score_candidates_descending_witness :
  let out := [with_score Inputs.cand2 (Py.FFin (3 # 4)) (Py.JStr "relevant");
              with_score Inputs.cand1 (Py.FFin (1 # 4)) (Py.JStr "noise")] in
  snd (score_candidates Inputs.post_scores Inputs.creds1 Inputs.loads1
                        Inputs.no_float_of_str Inputs.no_float_of_big
                        "q" [Inputs.cand1; Inputs.cand2] "" Py.f_zero None) = Py.Ok out
  /\ descending out.
Proof.
  split; [vm_compute; reflexivity|].
  apply (score_candidates_descending Inputs.post_scores Inputs.creds1 Inputs.loads1
           Inputs.no_float_of_str Inputs.no_float_of_big "q"
           [Inputs.cand1; Inputs.cand2] "" Py.f_zero None).
  vm_compute. reflexivity.
Defined.

Lemma score_candidates_without_key_witness :
  score_candidates Inputs.post_scores Inputs.creds1 Inputs.loads1
                   Inputs.no_float_of_str Inputs.no_float_of_big
                   "q" [Inputs.cand1; Inputs.cand2] "" Py.f_half (Some creds_no_key)
  = ([], Py.Ok [with_score Inputs.cand1 Py.f_half (Py.JStr "LLM unavailable");
                with_score Inputs.cand2 Py.f_half (Py.JStr "LLM unavailable")]).
Proof.
  apply (score_candidates_without_key Inputs.post_scores Inputs.creds1 Inputs.loads1
           Inputs.no_float_of_str Inputs.no_float_of_big "q"
           [Inputs.cand1; Inputs.cand2] "" Py.f_half (Some creds_no_key)).
  reflexivity.
Defined.

Lemma strip_fences_fenced_witness :
  one_line "json" = true
  /\ strip_fences (fenced "json" Inputs.scores_text) = Inputs.scores_text.
Proof. split; [reflexivity|]. rewrite (strip_fences_fenced "json"); reflexivity. Defined.

Lemma score_candidates_one_line_fence_witness :
  snd (score_candidates post_one_line Inputs.creds1 Inputs.loads1
                        Inputs.no_float_of_str Inputs.no_float_of_big
                        "q" [Inputs.cand1; Inputs.cand2] "" Py.f_half None)
  = Py.Ok [with_score Inputs.cand1 Py.f_half (Py.JStr "parse error");
           with_score Inputs.cand2 Py.f_half (Py.JStr "parse error")].
Proof.
  apply (score_candidates_one_line_fence post_one_line Inputs.creds1 Inputs.loads1
           Inputs.no_float_of_str Inputs.no_float_of_big "q"
           [Inputs.cand1; Inputs.cand2] "" Py.f_half None "```[]```").
  - discriminate.
  - reflexivity.
  - reflexivity.
  - reflexivity.
  - reflexivity.
Defined.

(** *** The crawl's result *)
Lemma str_length l : String.length (Py.str l) = length l.
Proof. induction l as [|c l IH]; simpl; [reflexivity|]. rewrite IH. reflexivity. Qed.

Lemma prefix_n_length n s : (String.length (Py.prefix_n n s) <= n)%nat.
Proof.
  unfold Py.prefix_n, Py.slice. rewrite str_length, Nat.sub_0_r. cbn [skipn].
  apply firstn_le_length.
Qed.

Lemma iteration_capped jl fs fb cr md thr mpl query a st :
  Forall node_capped (nodes st) ->
  Forall node_capped (nodes (iteration jl fs fb cr md thr mpl query a st)).
Proof.
  intros H. unfold iteration.
  repeat case_match; cbn [nodes]; try exact H;
    (apply Forall_app; split; [exact H|]); apply Forall_singleton; split;
    cbn [n_body n_comments]; first [apply prefix_n_length | apply firstn_le_length].
Qed.

(** X12. Every node of a crawl holds at most 2000 characters of body and
    at most 10 comments, whatever the fetched pages hold. *)
Theorem track_nodes_capped jl fs fb cr md thr mpl query seeds world :
  Forall node_capped (nodes (run jl fs fb cr md thr mpl query seeds world)).
Proof.
  apply ChainTrackerFacts.fold_run_invariant; [constructor|]. intros a st. apply iteration_capped.
Qed.

Lemma sublist_snoc {A} (l k : list A) x : sublist l k -> sublist (l ++ [x]) (k ++ [x]).
Proof. intros H. apply sublist_app; [exact H|reflexivity]. Qed.

Lemma sublist_grow {A} (l k k' : list A) : sublist l k -> sublist l (k ++ k').
Proof. intros H. rewrite <- (app_nil_r l). apply sublist_app; [exact H|apply sublist_nil_l]. Qed.

Lemma iteration_nodes_fetched jl fs fb cr md thr mpl query a st :
  nodes_fetched st -> nodes_fetched (iteration jl fs fb cr md thr mpl query a st).
Proof.
  intros H. unfold iteration, nodes_fetched in *.
  repeat case_match; cbn [nodes trace]; try exact H;
    rewrite ?map_app, ?ChainTrackerFacts.fetches_app; cbn [map fetches omap n_url];
    rewrite ?app_nil_r.
  all: try (apply sublist_grow; exact H).
  all: try (apply sublist_snoc; exact H).
Qed.


(** X13. No two nodes of a crawl have the same canonical URL (the URL
    without its trailing slashes): a page reached by several links, or by
    two seeds that differ by a trailing slash, is in the result once. *)
Theorem track_nodes_distinct jl fs fb cr md thr mpl query seeds world :
  NoDup (map canon_node (nodes (run jl fs fb cr md thr mpl query seeds world))).
Proof.
  assert (H : let st := run jl fs fb cr md thr mpl query seeds world in
              nodes_fetched st /\ fetched_once st).
  { apply (ChainTrackerFacts.fold_run_invariant (fun st => nodes_fetched st /\ fetched_once st)).
    - split; [constructor|]. split; [constructor|]. intros u Hu. inversion Hu.
    - intros a st [H1 H2]. split; [apply iteration_nodes_fetched, H1|].
      apply ChainTrackerFacts.iteration_fetched_once, H2. }
  destruct H as [Hs [ND _]].
  eapply sublist_NoDup; [exact ND|].
  assert (E : forall l, map canon_node l = map Py.rstrip_slash (map n_url l)).
  { intros l. rewrite map_map. reflexivity. }
  rewrite E. apply (fmap_sublist Py.rstrip_slash _ _ Hs).
Qed.

(** *** Breadth first *)
Lemma sorted_app (l k : list Z) :
  StronglySorted Z.le l -> StronglySorted Z.le k ->
  (forall x y, x ∈ l -> y ∈ k -> (x <= y)%Z) ->
  StronglySorted Z.le (l ++ k).
Proof.
  induction l as [|a l IH]; intros Hl Hk Hc; [exact Hk|].
  apply StronglySorted_inv in Hl as [Hl Ha]. simpl. constructor.
  - apply IH; [exact Hl|exact Hk|]. intros x y Hx Hy. apply Hc; [right; exact Hx|exact Hy].
  - apply Forall_app. split; [exact Ha|]. apply Forall_forall. intros y Hy.
    apply Hc; [left|exact Hy].
Qed.

Lemma sorted_const (d : Z) (l : list Z) : Forall (fun x => x = d) l -> StronglySorted Z.le l.
Proof.
  induction 1 as [|x l Hx Hl IH]; constructor; [exact IH|].
  subst x. eapply Forall_impl; [exact Hl|]. intros y ->. reflexivity.
Qed.

Lemma level_step ns e q new children :
  level_order ns (e :: q) ->
  Forall (fun n => n_depth n = e_depth e) new ->
  Forall (fun c => e_depth c = (e_depth e + 1)%Z) children ->
  level_order (ns ++ new) (q ++ children).
Proof.
  intros (Hn & Hq & Hnq & Hspan) Hnew Hch.
  simpl in Hq. apply StronglySorted_inv in Hq as [Hq He].
  assert (Hhead : forall e', e' ∈ q -> (e_depth e <= e_depth e')%Z).
  { intros e' He'. rewrite Forall_forall in He. apply He, list_elem_of_fmap.
    exists e'. split; [reflexivity|exact He']. }
  assert (Hup : forall e', e' ∈ q -> (e_depth e' <= e_depth e + 1)%Z).
  { intros e' He'. eapply Hspan; [reflexivity|exact He']. }
  rewrite Forall_forall in Hnew. rewrite Forall_forall in Hch.
  assert (Hold : forall n, n ∈ ns -> (n_depth n <= e_depth e)%Z).
  { intros n Hn'. apply Hnq; [exact Hn'|left]. }
  split; [|split; [|split]].
  - rewrite map_app. apply sorted_app; [exact Hn| |].
    + apply (sorted_const (e_depth e)), Forall_forall. intros x Hx.
      apply list_elem_of_fmap in Hx as (n & -> & Hx). apply Hnew, Hx.
    + intros x y Hx Hy. apply list_elem_of_fmap in Hx as (n & -> & Hx).
      apply list_elem_of_fmap in Hy as (n' & -> & Hy).
      rewrite (Hnew _ Hy). apply Hold, Hx.
  - rewrite map_app. apply sorted_app; [exact Hq| |].
    + apply (sorted_const (e_depth e + 1)), Forall_forall. intros x Hx.
      apply list_elem_of_fmap in Hx as (c & -> & Hx). apply Hch, Hx.
    + intros x y Hx Hy. apply list_elem_of_fmap in Hx as (e1 & -> & Hx).
      apply list_elem_of_fmap in Hy as (c & -> & Hy).
      rewrite (Hch _ Hy). apply Hup, Hx.
  - intros n e' Hn' He'. apply elem_of_app in Hn' as [Hn'|Hn'];
      apply elem_of_app in He' as [He'|He'].
    + apply Hnq; [exact Hn'|right; exact He'].
    + rewrite (Hch _ He'). specialize (Hold _ Hn'). lia.
    + rewrite (Hnew _ Hn'). apply Hhead, He'.
    + rewrite (Hnew _ Hn'), (Hch _ He'). lia.
  - intros e1 q1 e' E He'.
    assert (H1 : (e_depth e <= e_depth e1)%Z).
    { destruct q as [|e2 q2]; simpl in E.
      - assert (K : e1 ∈ children) by (rewrite E; left). rewrite (Hch _ K). lia.
      - injection E as -> _. apply Hhead. left. }
    assert (H2 : e' ∈ q ++ children) by (rewrite E; right; exact He').
    apply elem_of_app in H2 as [H2|H2].
    + specialize (Hup _ H2). lia.
    + rewrite (Hch _ H2). lia.
Qed.

Lemma iteration_level_order jl fs fb cr md thr mpl query a st :
  level_order (nodes st) (queue st) ->
  level_order (nodes (iteration jl fs fb cr md thr mpl query a st))
              (queue (iteration jl fs fb cr md thr mpl query a st)).
Proof.
  intros H. unfold iteration.
  destruct (crashed st); [exact H|]. destruct (queue st) as [|e q] eqn:Eq; [rewrite Eq; exact H|].
  pose proof (level_step _ e q [] [] H (Forall_nil_2 _) (Forall_nil_2 _)) as K0.
  rewrite !app_nil_r in K0.
  pose proof (fun n Hn => level_step _ e q [n] [] H (proj2 (Forall_singleton _ n) Hn)
                                     (Forall_nil_2 _)) as K1.
  repeat case_match; cbn [nodes queue]; try exact K0.
  all: try (match goal with
            | |- level_order (_ ++ [?n]) _ =>
                specialize (K1 n eq_refl); rewrite app_nil_r in K1; exact K1
            end).
  apply (level_step _ e); [exact H|apply Forall_singleton; reflexivity|].
  apply Forall_forall. intros en Hen. apply list_elem_of_fmap in Hen as (sc & -> & _). reflexivity.
Qed.

(** X14. The crawl is breadth first: the nodes are recorded in
    non-decreasing order of depth, all the seeds that could be fetched
    before any page at depth 1, and so on. *)
Theorem track_breadth_first jl fs fb cr md thr mpl query seeds world :
  StronglySorted Z.le (map n_depth (nodes (run jl fs fb cr md thr mpl query seeds world))).
Proof.
  apply (ChainTrackerFacts.fold_run_invariant (fun st => level_order (nodes st) (queue st))).
  - unfold init. cbn [nodes queue]. split; [constructor|]. split; [|split].
    + apply (sorted_const 0), Forall_forall. intros x Hx. rewrite map_map in Hx.
      apply list_elem_of_fmap in Hx as (u & -> & _). reflexivity.
    + intros n e Hn. inversion Hn.
    + intros e q e' E He'.
      assert (K : forall x, x ∈ map (fun u => Entry u 0 Py.f_one (Py.JStr "seed")) seeds
                            -> e_depth x = 0%Z).
      { intros x Hx. apply list_elem_of_fmap in Hx as (u & -> & _). reflexivity. }
      rewrite (K e'), (K e); [lia|rewrite E; left|rewrite E; right; exact He'].
  - intros a st. apply iteration_level_order.
Qed.

End MoreFacts.
